(** * cloudsplaining.scan.managed_policy_detail

    A shallow embedding of [ManagedPolicyDetails] and [ManagedPolicy]
    (the Policies section of an account authorization dump) and the
    properties of exclusion, default-version resolution, severity-gated
    risk reports and attachment cross-references. *)

From stdpp Require Import gmap strings list sorting.

#[local] Set Warnings "-register-all,-clear-no-such-hyp".

(** ** Python values and exceptions *)

(** Values of type [Any] that the module only stores and hands on
    (metadata, raw policy documents, pointer payloads). *)
Inductive value : Type :=
  | VNone
  | VBool (b : bool)
  | VInt (n : Z)
  | VStr (s : string)
  | VList (items : list value)
  | VDict (entries : list (string * value)).

(** The exceptions raised in the module, and [AttributeError], which
    the classifier raises on a document it cannot read. [Exception]
    carries its argument tuple. *)
Inductive exn : Type :=
  | KeyError (key : string)
  | NotFoundException (msg : string)
  | Exception (args : list string)
  | AttributeError (msg : string).

Inductive result (A : Type) : Type :=
  | Ok (a : A)
  | Raise (e : exn).
Arguments Ok {A} a.
Arguments Raise {A} e.

(** Sequencing: an exception ends the computation. *)
Global Instance result_bind : MBind result := λ A B k r,
  match r with
  | Ok a => k a
  | Raise e => Raise e
  end.

Global Instance result_ret : MRet result := λ A a, Ok a.

Global Instance result_fmap : FMap result := λ A B f r,
  match r with
  | Ok a => Ok (f a)
  | Raise e => Raise e
  end.

Definition is_ok {A} (r : result A) : bool :=
  match r with Ok _ => true | Raise _ => false end.

(** [d[key]] on a key that is present or absent. *)
Definition getitem {A} (key : string) (slot : option A) : result A :=
  match slot with
  | Some v => Ok v
  | None => Raise (KeyError key)
  end.

(** [d.get(key)]: the stored value, [None] when the key is absent. *)
Definition get (slot : option value) : value := default VNone slot.

(** [str.lower] on the ASCII range. *)
Definition lower_ascii (c : Ascii.ascii) : Ascii.ascii :=
  let n := Ascii.nat_of_ascii c in
  if (65 <=? n)%nat && (n <=? 90)%nat then Ascii.ascii_of_nat (n + 32) else c.

Fixpoint lower (s : string) : string :=
  match s with
  | EmptyString => EmptyString
  | String c rest => String (lower_ascii c) (lower rest)
  end.

(** ** Collaborators *)

(** [cloudsplaining.shared.exclusions.Exclusions]: the configured rules,
    seen through the one method the module calls. *)
Record Exclusions : Type := {
  is_policy_excluded : string → bool
}.

(** Modelled from the spec: a matcher with an empty rule set, which
    matches no identifier. *)
Definition empty_exclusions : Exclusions :=
  {| is_policy_excluded := λ _, false |}.

(** Modelled from the spec: [is_name_excluded(name, pattern)] of
    [cloudsplaining.shared.exclusions] is not in this file. The spec has
    it match a path against a glob such as [aws-service-role*], that is,
    the name begins with the text in front of the star; a pattern without
    a star matches the name itself. *)
Definition is_name_excluded (name pattern : string) : bool :=
  match String.index 0 "*" pattern with
  | Some i => String.prefix (String.substring 0 i pattern) name
  | None => String.eqb name pattern
  end.

(** Modelled from the spec: [is_aws_managed(arn)] of
    [cloudsplaining.shared.utils] is not in this file. The spec has it
    recognise the fixed arn shape [arn:aws:iam::aws:policy/...]. *)
Definition is_aws_managed (arn : string) : bool :=
  String.prefix "arn:aws:iam::aws:policy/" arn.

(** Modelled from the spec: a finding of the risk classifier, tagged
    with a type; the rest of the finding is carried along untouched. *)
Record Finding : Type := {
  finding_type : string;
  finding_body : value
}.

(** [cloudsplaining.scan.policy_document.PolicyDocument], seen through
    the six properties the module reads. *)
Record PolicyDocument : Type := {
  allows_privilege_escalation : list Finding;
  allows_data_exfiltration_actions : list Finding;
  permissions_management_without_constraints : list Finding;
  service_wildcard : list Finding;
  credentials_exposure : list Finding;
  infrastructure_modification : list string
}.

(** The keys of [ISSUE_SEVERITY] and [RISK_DEFINITION]. *)
Inductive RiskCategory : Type :=
  | PrivilegeEscalation
  | DataExfiltration
  | ResourceExposure
  | ServiceWildcard
  | CredentialsExposure
  | InfrastructureModification.

Global Instance RiskCategory_eq_dec : EqDecision RiskCategory.
Proof. solve_decision. Defined.

(** ** Input records *)

(** One entry of [PolicyVersionList]. A key that is absent is [None]. *)
Record PolicyVersion : Type := {
  Document : option value;
  IsDefaultVersion : option value
}.

(** One entry of the Policies section. A key that is absent is [None]. *)
Record PolicyDetail : Type := {
  PolicyName : option string;
  PolicyId : option string;
  Arn : option string;
  Path : option string;
  DefaultVersionId : option value;
  AttachmentCount : option value;
  PermissionsBoundaryUsageCount : option value;
  IsAttachable : option value;
  CreateDate : option value;
  UpdateDate : option value;
  PolicyVersionList : option (list PolicyVersion)
}.

(** ** The inventory snapshot ([iam_data]) *)

(** A principal of the inventory: its display name and the managed
    policies it points to, keyed by policy id. *)
Record Principal : Type := {
  name : string;
  aws_managed_policies : gmap string value;
  customer_managed_policies : gmap string value
}.

(** [iam_data]: for each principal type the principals by id, in the
    order the dict iterates them. *)
Record IamData : Type := {
  groups : list (string * Principal);
  users : list (string * Principal);
  roles : list (string * Principal)
}.

(** [{"groups": {}, "users": {}, "roles": {}}] *)
Definition empty_iam_data : IamData :=
  {| groups := []; users := []; roles := [] |}.

(** The three principal types, in the order [getAttached] visits them. *)
Inductive PrincipalType : Type := Roles | Groups | Users.

(** The key of a principal type, as in ["roles"], ["groups"], ["users"]. *)
Definition principal_key (principalType : PrincipalType) : string :=
  match principalType with
  | Roles => "roles"
  | Groups => "groups"
  | Users => "users"
  end.

(** [iam_data[principalType]] *)
Definition principals_of (iam_data : IamData) (principalType : PrincipalType)
  : list (string * Principal) :=
  match principalType with
  | Roles => roles iam_data
  | Groups => groups iam_data
  | Users => users iam_data
  end.

(** ** Reports *)

Module Report.

(** One risk category of a report. A category without a ["links"] key
    has [links = None]. *)
Record entry (A : Type) : Type := {
  severity : string;
  description : string;
  findings : list A;
  links : option (gmap string string)
}.
Arguments severity {A} _.
Arguments description {A} _.
Arguments findings {A} _.
Arguments links {A} _.

(** The dict built by [ManagedPolicy.json] and [ManagedPolicy.json_large];
    the former has no ["InfrastructureModification"] key. *)
Record t : Type := {
  PolicyName : string;
  PolicyId : string;
  Arn : string;
  Path : string;
  DefaultVersionId : value;
  AttachmentCount : value;
  AttachedTo : gmap string (list string);
  IsAttachable : value;
  CreateDate : value;
  UpdateDate : value;
  PolicyVersionList : list PolicyVersion;
  PrivilegeEscalation : entry Finding;
  DataExfiltration : entry Finding;
  ResourceExposure : entry Finding;
  ServiceWildcard : entry Finding;
  CredentialsExposure : entry Finding;
  InfrastructureModification : option (entry string);
  is_excluded : bool
}.

End Report.

(** ** class ManagedPolicy *)

Module ManagedPolicy.

Record t : Type := {
  policy_detail : PolicyDetail;
  flag_conditional_statements : bool;
  flag_resource_arn_statements : bool;
  policy_name : string;
  policy_id : string;
  arn : string;
  path : string;
  default_version_id : value;
  attachment_count : value;
  permissions_boundary_usage_count : value;
  is_attachable : value;
  create_date : value;
  update_date : value;
  iam_data : IamData;
  exclusions : Exclusions;
  is_excluded : bool;
  policy_version_list : list PolicyVersion;
  policy_document : PolicyDocument;
  severity : list string
}.

(** The outcome of a loop body that may leave the method with [return]. *)
Inductive flow (A R : Type) : Type :=
  | Next (a : A)
  | Return (r : R).
Arguments Next {A R} a.
Arguments Return {A R} r.

Section methods.

(** The constructor of [PolicyDocument], called with the raw
    document, the exclusions, [flag_resource_arn_statements] and
    [flag_conditional_statements]; it returns the document or raises. *)
Variable new_PolicyDocument : value → Exclusions → bool → bool → result PolicyDocument.

(** The tables of [cloudsplaining.shared.constants]. *)
Variable ISSUE_SEVERITY : RiskCategory → string.
Variable RISK_DEFINITION : RiskCategory → string.

(** [get_full_policy_path] of [cloudsplaining.shared.utils] and
    [get_account_from_arn] of [policy_sentry.util.arns]. *)
Variable get_full_policy_path : string → string.
Variable get_account_from_arn : string → string.

(** [_is_excluded(self, exclusions)]; reads [self.policy_name],
    [self.policy_id] and [self.path]. *)
Definition _is_excluded (policy_name policy_id path : string)
    (exclusions : Exclusions) : bool :=
  is_policy_excluded exclusions policy_name
  || is_policy_excluded exclusions policy_id
  || is_policy_excluded exclusions path
  || is_name_excluded path "/aws-service-role*".

(** [policy_version.get("IsDefaultVersion") is True] *)
Definition is_default_version (policy_version : PolicyVersion) : bool :=
  match IsDefaultVersion policy_version with
  | Some (VBool true) => true
  | _ => false
  end.

(** [_policy_document(self)]; reads [self.policy_version_list],
    [self.exclusions], the two flags and [self.arn]. *)
Fixpoint _policy_document (policy_version_list : list PolicyVersion)
    (exclusions : Exclusions)
    (flag_resource_arn_statements flag_conditional_statements : bool)
    (arn : string) : result PolicyDocument :=
  match policy_version_list with
  | [] =>
      Raise (Exception
        ["Managed Policy ARN %s has no default Policy Document version"; arn])
  | policy_version :: rest =>
      if is_default_version policy_version then
        new_PolicyDocument (get (Document policy_version)) exclusions
          flag_resource_arn_statements flag_conditional_statements
      else
        _policy_document rest exclusions
          flag_resource_arn_statements flag_conditional_statements arn
  end.

(** [ManagedPolicy(policy_detail, exclusions, flag_conditional_statements,
    flag_resource_arn_statements, severity)]. The exclusions argument
    is typed, so the [isinstance] guard always passes. *)
Definition __init__ (policy_detail : PolicyDetail) (exclusions : Exclusions)
    (flag_conditional_statements flag_resource_arn_statements : bool)
    (severity : option (list string)) : result t :=
  policy_name ← getitem "PolicyName" (PolicyName policy_detail);
  policy_id ← getitem "PolicyId" (PolicyId policy_detail);
  arn ← getitem "Arn" (Arn policy_detail);
  path ← getitem "Path" (Path policy_detail);
  let default_version_id := get (DefaultVersionId policy_detail) in
  let attachment_count := get (AttachmentCount policy_detail) in
  let permissions_boundary_usage_count :=
    get (PermissionsBoundaryUsageCount policy_detail) in
  let is_attachable := get (IsAttachable policy_detail) in
  let create_date := get (CreateDate policy_detail) in
  let update_date := get (UpdateDate policy_detail) in
  let is_excluded := _is_excluded policy_name policy_id path exclusions in
  let policy_version_list := default [] (PolicyVersionList policy_detail) in
  policy_document ←
    _policy_document policy_version_list exclusions
      flag_resource_arn_statements flag_conditional_statements arn;
  Ok {| policy_detail := policy_detail;
        flag_conditional_statements := flag_conditional_statements;
        flag_resource_arn_statements := flag_resource_arn_statements;
        policy_name := policy_name;
        policy_id := policy_id;
        arn := arn;
        path := path;
        default_version_id := default_version_id;
        attachment_count := attachment_count;
        permissions_boundary_usage_count := permissions_boundary_usage_count;
        is_attachable := is_attachable;
        create_date := create_date;
        update_date := update_date;
        iam_data := empty_iam_data;
        exclusions := exclusions;
        is_excluded := is_excluded;
        policy_version_list := policy_version_list;
        policy_document := policy_document;
        severity := default [] severity |}.

(** [set_iam_data(self, iam_data)]: assigns [self.iam_data]. *)
Definition set_iam_data (iam_data' : IamData) (self : t) : t :=
  {| policy_detail := policy_detail self;
     flag_conditional_statements := flag_conditional_statements self;
     flag_resource_arn_statements := flag_resource_arn_statements self;
     policy_name := policy_name self;
     policy_id := policy_id self;
     arn := arn self;
     path := path self;
     default_version_id := default_version_id self;
     attachment_count := attachment_count self;
     permissions_boundary_usage_count := permissions_boundary_usage_count self;
     is_attachable := is_attachable self;
     create_date := create_date self;
     update_date := update_date self;
     iam_data := iam_data';
     exclusions := exclusions self;
     is_excluded := is_excluded self;
     policy_version_list := policy_version_list self;
     policy_document := policy_document self;
     severity := severity self |}.

(** [full_policy_path] *)
Definition full_policy_path (self : t) : string :=
  get_full_policy_path (arn self).

(** [managed_by] *)
Definition managed_by (self : t) : string :=
  if is_aws_managed (arn self) then "AWS" else "Customer".

(** [account_id] *)
Definition account_id (self : t) : string :=
  if is_aws_managed (arn self) then "N/A" else get_account_from_arn (arn self).

(** [getFindingLinks(self, findings)] *)
Definition getFindingLinks (findings : list Finding) : gmap string string :=
  foldl
    (λ links finding,
       <[finding_type finding :=
           "https://cloudsplaining.readthedocs.io/en/latest/glossary/privilege-escalation/#"
           +:+ finding_type finding]> links)
    ∅ findings.

(** The inner loop of [getAttached] over the principals of one type.
    A dict yields each key once, so visiting the keys and indexing by
    them visits the entries in order. *)
Fixpoint getAttached_principals (self : t) (principalType : PrincipalType)
    (principals : list (string * Principal))
    (attached : gmap string (list string))
  : flow (gmap string (list string)) (gmap string (list string)) :=
  match principals with
  | [] => Next attached
  | (principalID, principal) :: rest =>
      let managedPolicies : gmap string value := ∅ in
      if is_excluded self then Return ∅
      else
        let managedPolicies :=
          if String.eqb (managed_by self) "AWS" then
            aws_managed_policies principal ∪ managedPolicies
          else if String.eqb (managed_by self) "Customer" then
            customer_managed_policies principal ∪ managedPolicies
          else managedPolicies in
        let attached :=
          if bool_decide (is_Some (managedPolicies !! policy_id self)) then
            alter (λ names, names ++ [name principal])
              (principal_key principalType) attached
          else attached in
        getAttached_principals self principalType rest attached
  end.

(** The outer loop of [getAttached] over the principal types. *)
Fixpoint getAttached_types (self : t) (principalTypes : list PrincipalType)
    (attached : gmap string (list string)) : gmap string (list string) :=
  match principalTypes with
  | [] => attached
  | principalType :: rest =>
      match getAttached_principals self principalType
              (principals_of (iam_data self) principalType) attached with
      | Return r => r
      | Next attached => getAttached_types self rest attached
      end
  end.

(** [getAttached] *)
Definition getAttached (self : t) : gmap string (list string) :=
  getAttached_types self [Roles; Groups; Users]
    {[ "roles" := []; "groups" := []; "users" := [] ]}.

(** The condition of every ["findings"] entry:
    [ISSUE_SEVERITY[c] in [x.lower() for x in self.severity]
     or not self.severity]. *)
Definition severity_selects (self : t) (c : RiskCategory) : bool :=
  bool_decide (ISSUE_SEVERITY c ∈ lower <$> severity self)
  || bool_decide (severity self = []).

(** [json]: the report without the infrastructure modification
    actions. *)
Definition json (self : t) : Report.t :=
  {| Report.PolicyName := policy_name self;
     Report.PolicyId := policy_id self;
     Report.Arn := arn self;
     Report.Path := path self;
     Report.DefaultVersionId := default_version_id self;
     Report.AttachmentCount := attachment_count self;
     Report.AttachedTo := getAttached self;
     Report.IsAttachable := is_attachable self;
     Report.CreateDate := create_date self;
     Report.UpdateDate := update_date self;
     Report.PolicyVersionList := policy_version_list self;
     Report.PrivilegeEscalation :=
       {| Report.severity := ISSUE_SEVERITY PrivilegeEscalation;
          Report.description := RISK_DEFINITION PrivilegeEscalation;
          Report.findings :=
            if severity_selects self PrivilegeEscalation
            then allows_privilege_escalation (policy_document self)
            else [];
          Report.links := Some (getFindingLinks
              (if severity_selects self PrivilegeEscalation
               then allows_privilege_escalation (policy_document self)
               else [])) |};
     Report.DataExfiltration :=
       {| Report.severity := ISSUE_SEVERITY DataExfiltration;
          Report.description := RISK_DEFINITION DataExfiltration;
          Report.findings :=
            if severity_selects self DataExfiltration
            then allows_data_exfiltration_actions (policy_document self)
            else [];
          Report.links := None |};
     Report.ResourceExposure :=
       {| Report.severity := ISSUE_SEVERITY ResourceExposure;
          Report.description := RISK_DEFINITION ResourceExposure;
          Report.findings :=
            if severity_selects self ResourceExposure
            then permissions_management_without_constraints (policy_document self)
            else [];
          Report.links := None |};
     Report.ServiceWildcard :=
       {| Report.severity := ISSUE_SEVERITY ServiceWildcard;
          Report.description := RISK_DEFINITION ServiceWildcard;
          Report.findings :=
            if severity_selects self ServiceWildcard
            then service_wildcard (policy_document self)
            else [];
          Report.links := None |};
     Report.CredentialsExposure :=
       {| Report.severity := ISSUE_SEVERITY CredentialsExposure;
          Report.description := RISK_DEFINITION CredentialsExposure;
          Report.findings :=
            if severity_selects self CredentialsExposure
            then credentials_exposure (policy_document self)
            else [];
          Report.links := None |};
     Report.InfrastructureModification := None;
     Report.is_excluded := is_excluded self |}.

(** [json_large]: the report including the infrastructure modification
    actions. *)
Definition json_large (self : t) : Report.t :=
  {| Report.PolicyName := policy_name self;
     Report.PolicyId := policy_id self;
     Report.Arn := arn self;
     Report.Path := path self;
     Report.DefaultVersionId := default_version_id self;
     Report.AttachmentCount := attachment_count self;
     Report.AttachedTo := getAttached self;
     Report.IsAttachable := is_attachable self;
     Report.CreateDate := create_date self;
     Report.UpdateDate := update_date self;
     Report.PolicyVersionList := policy_version_list self;
     Report.PrivilegeEscalation :=
       {| Report.severity := ISSUE_SEVERITY PrivilegeEscalation;
          Report.description := RISK_DEFINITION PrivilegeEscalation;
          Report.findings :=
            if severity_selects self PrivilegeEscalation
            then allows_privilege_escalation (policy_document self)
            else [];
          Report.links := Some (getFindingLinks
              (if severity_selects self PrivilegeEscalation
               then allows_privilege_escalation (policy_document self)
               else [])) |};
     Report.DataExfiltration :=
       {| Report.severity := ISSUE_SEVERITY DataExfiltration;
          Report.description := RISK_DEFINITION DataExfiltration;
          Report.findings :=
            if severity_selects self DataExfiltration
            then allows_data_exfiltration_actions (policy_document self)
            else [];
          Report.links := None |};
     Report.ResourceExposure :=
       {| Report.severity := ISSUE_SEVERITY ResourceExposure;
          Report.description := RISK_DEFINITION ResourceExposure;
          Report.findings :=
            if severity_selects self ResourceExposure
            then permissions_management_without_constraints (policy_document self)
            else [];
          Report.links := None |};
     Report.ServiceWildcard :=
       {| Report.severity := ISSUE_SEVERITY ServiceWildcard;
          Report.description := RISK_DEFINITION ServiceWildcard;
          Report.findings :=
            if severity_selects self ServiceWildcard
            then service_wildcard (policy_document self)
            else [];
          Report.links := None |};
     Report.CredentialsExposure :=
       {| Report.severity := ISSUE_SEVERITY CredentialsExposure;
          Report.description := RISK_DEFINITION CredentialsExposure;
          Report.findings :=
            if severity_selects self CredentialsExposure
            then credentials_exposure (policy_document self)
            else [];
          Report.links := None |};
     Report.InfrastructureModification :=
       Some
         {| Report.severity := ISSUE_SEVERITY InfrastructureModification;
            Report.description := RISK_DEFINITION InfrastructureModification;
            Report.findings :=
              if severity_selects self InfrastructureModification
              then infrastructure_modification (policy_document self)
              else [];
            Report.links := None |};
     Report.is_excluded := is_excluded self |}.

End methods.

End ManagedPolicy.

(** ** class ManagedPolicyDetails *)

Module ManagedPolicyDetails.

(** The collection owns its [ManagedPolicy] objects: [policy_details]
    holds one object per retained record, each created by the constructor
    and reachable through this list only. *)
Record t : Type := {
  policy_details : list ManagedPolicy.t;
  exclusions : Exclusions;
  flag_conditional_statements : bool;
  flag_resource_arn_statements : bool;
  iam_data : IamData
}.

(** A reference to a retained object: its slot in [policy_details].
    Two references are the same object exactly when the slots agree. *)
Definition ref : Type := nat.

(** The object a reference points to in the current state. *)
Definition deref (self : t) (r : ref) : option ManagedPolicy.t :=
  policy_details self !! r.

Section methods.

Variable new_PolicyDocument : value → Exclusions → bool → bool → result PolicyDocument.
Variable ISSUE_SEVERITY : RiskCategory → string.
Variable RISK_DEFINITION : RiskCategory → string.

(** The loop of the constructor over the raw records; [retained] is
    [self.policy_details] so far. *)
Fixpoint __init___loop (policy_details : list PolicyDetail)
    (exclusions : Exclusions)
    (flag_conditional_statements flag_resource_arn_statements : bool)
    (severity : option (list string))
    (retained : list ManagedPolicy.t) : result (list ManagedPolicy.t) :=
  match policy_details with
  | [] => Ok retained
  | policy_detail :: rest =>
      this_policy_name ← getitem "PolicyName" (PolicyName policy_detail);
      this_policy_id ← getitem "PolicyId" (PolicyId policy_detail);
      this_policy_path ← getitem "Path" (Path policy_detail);
      if is_name_excluded this_policy_path "aws-service-role*"
         || is_name_excluded this_policy_path "/aws-service-role*"
      then
        __init___loop rest exclusions
          flag_conditional_statements flag_resource_arn_statements severity retained
      else if is_policy_excluded exclusions this_policy_name
              || is_policy_excluded exclusions this_policy_id
              || is_policy_excluded exclusions this_policy_path
      then
        __init___loop rest exclusions
          flag_conditional_statements flag_resource_arn_statements severity retained
      else
        policy ← ManagedPolicy.__init__ new_PolicyDocument policy_detail exclusions
                   flag_conditional_statements flag_resource_arn_statements severity;
        __init___loop rest exclusions
          flag_conditional_statements flag_resource_arn_statements severity
          (retained ++ [policy])
  end.

(** [ManagedPolicyDetails(policy_details, exclusions,
    flag_conditional_statements, flag_resource_arn_statements, severity)].
    The exclusions argument is typed, so the [isinstance] guard always
    passes. *)
Definition __init__ (policy_details : list PolicyDetail)
    (exclusions : Exclusions)
    (flag_conditional_statements flag_resource_arn_statements : bool)
    (severity : option (list string)) : result t :=
  retained ← __init___loop policy_details exclusions
                flag_conditional_statements flag_resource_arn_statements severity [];
  Ok {| policy_details := retained;
        exclusions := exclusions;
        flag_conditional_statements := flag_conditional_statements;
        flag_resource_arn_statements := flag_resource_arn_statements;
        iam_data := empty_iam_data |}.

(** The loop of [get_policy_detail], entered at slot [i]. *)
Fixpoint get_policy_detail_from (i : ref) (policy_details : list ManagedPolicy.t)
    (arn : string) : result ref :=
  match policy_details with
  | [] => Raise (NotFoundException ("Managed Policy ARN " +:+ arn +:+ " not found."))
  | policy_detail :: rest =>
      if String.eqb (ManagedPolicy.arn policy_detail) arn then Ok i
      else get_policy_detail_from (S i) rest arn
  end.

(** [get_policy_detail(self, arn)]: the reference to the object found. *)
Definition get_policy_detail (self : t) (arn : string) : result ref :=
  get_policy_detail_from 0 (policy_details self) arn.

(** [all_infrastructure_modification_actions]: [sorted(result)] orders
    the strings of the set by code point. *)
Definition all_infrastructure_modification_actions (self : t) : list string :=
  let result : gset string :=
    foldl
      (λ result policy,
         result ∪ list_to_set
           (infrastructure_modification (ManagedPolicy.policy_document policy)))
      ∅ (policy_details self) in
  merge_sort String.le (elements result).

(** [json] *)
Definition json (self : t) : gmap string Report.t :=
  foldl
    (λ result policy,
       <[ManagedPolicy.policy_id policy :=
           ManagedPolicy.json ISSUE_SEVERITY RISK_DEFINITION policy]> result)
    ∅ (policy_details self).

(** [json_large] *)
Definition json_large (self : t) : gmap string Report.t :=
  foldl
    (λ result policy,
       <[ManagedPolicy.policy_id policy :=
           ManagedPolicy.json_large ISSUE_SEVERITY RISK_DEFINITION policy]> result)
    ∅ (policy_details self).

(** [json_large_aws_managed] *)
Definition json_large_aws_managed (self : t) : gmap string Report.t :=
  foldl
    (λ result policy,
       <[ManagedPolicy.policy_id policy :=
           ManagedPolicy.json_large ISSUE_SEVERITY RISK_DEFINITION policy]> result)
    ∅
    (filter (λ policy, ManagedPolicy.managed_by policy = "AWS")
       (policy_details self)).

(** [json_large_customer_managed] *)
Definition json_large_customer_managed (self : t) : gmap string Report.t :=
  foldl
    (λ result policy,
       <[ManagedPolicy.policy_id policy :=
           ManagedPolicy.json_large ISSUE_SEVERITY RISK_DEFINITION policy]> result)
    ∅
    (filter (λ policy, ManagedPolicy.managed_by policy = "Customer")
       (policy_details self)).

(** [set_iam_data(self, iam_data)]: assigns [self.iam_data] and calls
    [set_iam_data] on every retained object, in place. *)
Definition set_iam_data (iam_data' : IamData) (self : t) : t :=
  {| policy_details := ManagedPolicy.set_iam_data iam_data' <$> policy_details self;
     exclusions := exclusions self;
     flag_conditional_statements := flag_conditional_statements self;
     flag_resource_arn_statements := flag_resource_arn_statements self;
     iam_data := iam_data' |}.

End methods.

End ManagedPolicyDetails.

(** ** Vocabulary of the statements *)

(** The attachment report with no principal in any of the three lists. *)
Definition no_attachments : gmap string (list string) :=
  {[ "roles" := []; "groups" := []; "users" := [] ]}.

(** The display names of the principals that point to a policy, in
    the order of the inventory: the pointer dict consulted is
    [aws_managed_policies] for an AWS-managed policy, else
    [customer_managed_policies]. *)
Definition attached_names (self : ManagedPolicy.t)
    (principals : list (string * Principal)) : list string :=
  name <$>
    filter
      (λ principal,
         is_Some
           ((if is_aws_managed (ManagedPolicy.arn self)
             then aws_managed_policies principal
             else customer_managed_policies principal)
            !! ManagedPolicy.policy_id self))
      principals.*2.

(** An inventory without any principal. *)
Definition no_principals (inventory : IamData) : Prop :=
  roles inventory = [] ∧ groups inventory = [] ∧ users inventory = [].

(** The findings of a category: typed findings for the five baseline
    categories, action names for infrastructure modification. *)
Inductive category_findings : Type :=
  | FindingList (found : list Finding)
  | ActionList (actions : list string).

(** The empty findings list of a category. *)
Definition no_findings (c : RiskCategory) : category_findings :=
  match c with
  | InfrastructureModification => ActionList []
  | _ => FindingList []
  end.

(** The unfiltered findings of a category in a document. *)
Definition document_findings (document : PolicyDocument) (c : RiskCategory)
  : category_findings :=
  match c with
  | PrivilegeEscalation => FindingList (allows_privilege_escalation document)
  | DataExfiltration => FindingList (allows_data_exfiltration_actions document)
  | ResourceExposure =>
      FindingList (permissions_management_without_constraints document)
  | ServiceWildcard => FindingList (service_wildcard document)
  | CredentialsExposure => FindingList (credentials_exposure document)
  | InfrastructureModification => ActionList (infrastructure_modification document)
  end.

(** The entry of a category in a report, read at one of its keys;
    [None] when the report has no entry for the category. *)
Definition report_findings (report : Report.t) (c : RiskCategory)
  : option category_findings :=
  match c with
  | PrivilegeEscalation =>
      Some (FindingList (Report.findings (Report.PrivilegeEscalation report)))
  | DataExfiltration =>
      Some (FindingList (Report.findings (Report.DataExfiltration report)))
  | ResourceExposure =>
      Some (FindingList (Report.findings (Report.ResourceExposure report)))
  | ServiceWildcard =>
      Some (FindingList (Report.findings (Report.ServiceWildcard report)))
  | CredentialsExposure =>
      Some (FindingList (Report.findings (Report.CredentialsExposure report)))
  | InfrastructureModification =>
      (λ e, ActionList (Report.findings e))
        <$> Report.InfrastructureModification report
  end.

Definition report_severity (report : Report.t) (c : RiskCategory) : option string :=
  match c with
  | PrivilegeEscalation => Some (Report.severity (Report.PrivilegeEscalation report))
  | DataExfiltration => Some (Report.severity (Report.DataExfiltration report))
  | ResourceExposure => Some (Report.severity (Report.ResourceExposure report))
  | ServiceWildcard => Some (Report.severity (Report.ServiceWildcard report))
  | CredentialsExposure => Some (Report.severity (Report.CredentialsExposure report))
  | InfrastructureModification =>
      Report.severity <$> Report.InfrastructureModification report
  end.

Definition report_description (report : Report.t) (c : RiskCategory)
  : option string :=
  match c with
  | PrivilegeEscalation =>
      Some (Report.description (Report.PrivilegeEscalation report))
  | DataExfiltration => Some (Report.description (Report.DataExfiltration report))
  | ResourceExposure => Some (Report.description (Report.ResourceExposure report))
  | ServiceWildcard => Some (Report.description (Report.ServiceWildcard report))
  | CredentialsExposure =>
      Some (Report.description (Report.CredentialsExposure report))
  | InfrastructureModification =>
      Report.description <$> Report.InfrastructureModification report
  end.

(** The ["links"] key of a category; [None] when the entry has no such
    key or the report has no entry for the category. *)
Definition report_links (report : Report.t) (c : RiskCategory)
  : option (gmap string string) :=
  match c with
  | PrivilegeEscalation => Report.links (Report.PrivilegeEscalation report)
  | DataExfiltration => Report.links (Report.DataExfiltration report)
  | ResourceExposure => Report.links (Report.ResourceExposure report)
  | ServiceWildcard => Report.links (Report.ServiceWildcard report)
  | CredentialsExposure => Report.links (Report.CredentialsExposure report)
  | InfrastructureModification =>
      Report.InfrastructureModification report ≫= Report.links
  end.

(** The two report variants: [json_large] when [extended], else [json]. *)
Definition report_of (ISSUE_SEVERITY RISK_DEFINITION : RiskCategory → string)
    (extended : bool) (self : ManagedPolicy.t) : Report.t :=
  if extended then ManagedPolicy.json_large ISSUE_SEVERITY RISK_DEFINITION self
  else ManagedPolicy.json ISSUE_SEVERITY RISK_DEFINITION self.

(** The categories a variant reports on. *)
Definition reported (extended : bool) (c : RiskCategory) : Prop :=
  c = InfrastructureModification → extended = true.

(** The documentation link of a privilege escalation finding type. *)
Definition finding_link (finding_type : string) : string :=
  "https://cloudsplaining.readthedocs.io/en/latest/glossary/privilege-escalation/#"
  +:+ finding_type.

(** The optional metadata keys of a record. *)
Inductive optional_key : Type :=
  | KDefaultVersionId
  | KAttachmentCount
  | KPermissionsBoundaryUsageCount
  | KIsAttachable
  | KCreateDate
  | KUpdateDate.

Global Instance optional_key_eq_dec : EqDecision optional_key.
Proof. solve_decision. Defined.

(** The slot of an optional key in a record. *)
Definition optional_slot (key : optional_key) (policy_detail : PolicyDetail)
  : option value :=
  match key with
  | KDefaultVersionId => DefaultVersionId policy_detail
  | KAttachmentCount => AttachmentCount policy_detail
  | KPermissionsBoundaryUsageCount => PermissionsBoundaryUsageCount policy_detail
  | KIsAttachable => IsAttachable policy_detail
  | KCreateDate => CreateDate policy_detail
  | KUpdateDate => UpdateDate policy_detail
  end.

(** The attribute of the constructed object that holds an optional key. *)
Definition optional_attribute (key : optional_key) (self : ManagedPolicy.t)
  : value :=
  match key with
  | KDefaultVersionId => ManagedPolicy.default_version_id self
  | KAttachmentCount => ManagedPolicy.attachment_count self
  | KPermissionsBoundaryUsageCount =>
      ManagedPolicy.permissions_boundary_usage_count self
  | KIsAttachable => ManagedPolicy.is_attachable self
  | KCreateDate => ManagedPolicy.create_date self
  | KUpdateDate => ManagedPolicy.update_date self
  end.

(** The record with the optional keys in [missing] removed. *)
Definition without_keys (missing : list optional_key)
    (policy_detail : PolicyDetail) : PolicyDetail :=
  let keep key :=
    if decide (key ∈ missing) then None else optional_slot key policy_detail in
  {| PolicyName := PolicyName policy_detail;
     PolicyId := PolicyId policy_detail;
     Arn := Arn policy_detail;
     Path := Path policy_detail;
     DefaultVersionId := keep KDefaultVersionId;
     AttachmentCount := keep KAttachmentCount;
     PermissionsBoundaryUsageCount := keep KPermissionsBoundaryUsageCount;
     IsAttachable := keep KIsAttachable;
     CreateDate := keep KCreateDate;
     UpdateDate := keep KUpdateDate;
     PolicyVersionList := PolicyVersionList policy_detail |}.

(** The message of the exception for a record without default version. *)
Definition no_default_version (arn : string) : exn :=
  Exception ["Managed Policy ARN %s has no default Policy Document version"; arn].

(** The retained policies of one origin that carry a policy id, in
    retained order. *)
Definition retained_with_id (aws_managed : bool) (policy_id : string)
    (self : ManagedPolicyDetails.t) : list ManagedPolicy.t :=
  filter (λ policy, ManagedPolicy.policy_id policy = policy_id)
    (filter (λ policy, is_aws_managed (ManagedPolicy.arn policy) = aws_managed)
       (ManagedPolicyDetails.policy_details self)).

(** Two states of a policy object that differ at most in [iam_data]. *)
Definition same_but_inventory (before after : ManagedPolicy.t) : Prop :=
  ManagedPolicy.policy_detail after = ManagedPolicy.policy_detail before
  ∧ ManagedPolicy.flag_conditional_statements after
    = ManagedPolicy.flag_conditional_statements before
  ∧ ManagedPolicy.flag_resource_arn_statements after
    = ManagedPolicy.flag_resource_arn_statements before
  ∧ ManagedPolicy.policy_name after = ManagedPolicy.policy_name before
  ∧ ManagedPolicy.policy_id after = ManagedPolicy.policy_id before
  ∧ ManagedPolicy.arn after = ManagedPolicy.arn before
  ∧ ManagedPolicy.path after = ManagedPolicy.path before
  ∧ ManagedPolicy.default_version_id after = ManagedPolicy.default_version_id before
  ∧ ManagedPolicy.attachment_count after = ManagedPolicy.attachment_count before
  ∧ ManagedPolicy.permissions_boundary_usage_count after
    = ManagedPolicy.permissions_boundary_usage_count before
  ∧ ManagedPolicy.is_attachable after = ManagedPolicy.is_attachable before
  ∧ ManagedPolicy.create_date after = ManagedPolicy.create_date before
  ∧ ManagedPolicy.update_date after = ManagedPolicy.update_date before
  ∧ ManagedPolicy.exclusions after = ManagedPolicy.exclusions before
  ∧ ManagedPolicy.is_excluded after = ManagedPolicy.is_excluded before
  ∧ ManagedPolicy.policy_version_list after
    = ManagedPolicy.policy_version_list before
  ∧ ManagedPolicy.policy_document after = ManagedPolicy.policy_document before
  ∧ ManagedPolicy.severity after = ManagedPolicy.severity before.

(** The message of [get_policy_detail] for an arn that is not retained. *)
Definition not_found (arn : string) : exn :=
  NotFoundException ("Managed Policy ARN " +:+ arn +:+ " not found.").

(** Whether the constructor of the collection keeps a record: its
    [PolicyName], [PolicyId] and [Path] are present, the path is under
    neither spelling of the service-role prefix, and no rule matches the
    name, the id or the path. *)
Definition record_kept (exclusions : Exclusions) (policy_detail : PolicyDetail)
  : bool :=
  match PolicyName policy_detail, PolicyId policy_detail, Path policy_detail with
  | Some this_policy_name, Some this_policy_id, Some this_policy_path =>
      negb (is_name_excluded this_policy_path "aws-service-role*"
            || is_name_excluded this_policy_path "/aws-service-role*")
      && negb (is_policy_excluded exclusions this_policy_name
               || is_policy_excluded exclusions this_policy_id
               || is_policy_excluded exclusions this_policy_path)
  | _, _, _ => false
  end.

(** One pass of the loop of [ManagedPolicyDetails.__init__]: the three
    reads, then nothing for a record that is dropped, or the policy
    constructed from a record that is kept. *)
Definition record_step
    (new_PolicyDocument : value → Exclusions → bool → bool → result PolicyDocument)
    (exclusions : Exclusions)
    (flag_conditional_statements flag_resource_arn_statements : bool)
    (severity : option (list string)) (policy_detail : PolicyDetail)
  : result (option ManagedPolicy.t) :=
  _ ← getitem "PolicyName" (PolicyName policy_detail);
  _ ← getitem "PolicyId" (PolicyId policy_detail);
  _ ← getitem "Path" (Path policy_detail);
  if record_kept exclusions policy_detail then
    Some <$> ManagedPolicy.__init__ new_PolicyDocument policy_detail exclusions
               flag_conditional_statements flag_resource_arn_statements severity
  else Ok None.

(** The first identity key a record lacks, in the order the constructor
    of [ManagedPolicy] reads them. *)
Definition first_missing_key (policy_detail : PolicyDetail) : option string :=
  match PolicyName policy_detail, PolicyId policy_detail,
        Arn policy_detail, Path policy_detail with
  | None, _, _, _ => Some "PolicyName"
  | Some _, None, _, _ => Some "PolicyId"
  | Some _, Some _, None, _ => Some "Arn"
  | Some _, Some _, Some _, None => Some "Path"
  | Some _, Some _, Some _, Some _ => None
  end.

(** A report without its ["InfrastructureModification"] key. *)
Definition without_infrastructure (report : Report.t) : Report.t :=
  {| Report.PolicyName := Report.PolicyName report;
     Report.PolicyId := Report.PolicyId report;
     Report.Arn := Report.Arn report;
     Report.Path := Report.Path report;
     Report.DefaultVersionId := Report.DefaultVersionId report;
     Report.AttachmentCount := Report.AttachmentCount report;
     Report.AttachedTo := Report.AttachedTo report;
     Report.IsAttachable := Report.IsAttachable report;
     Report.CreateDate := Report.CreateDate report;
     Report.UpdateDate := Report.UpdateDate report;
     Report.PolicyVersionList := Report.PolicyVersionList report;
     Report.PrivilegeEscalation := Report.PrivilegeEscalation report;
     Report.DataExfiltration := Report.DataExfiltration report;
     Report.ResourceExposure := Report.ResourceExposure report;
     Report.ServiceWildcard := Report.ServiceWildcard report;
     Report.CredentialsExposure := Report.CredentialsExposure report;
     Report.InfrastructureModification := None;
     Report.is_excluded := Report.is_excluded report |}.

(** A report with another ["AttachedTo"] value. *)
Definition with_attached (attached : gmap string (list string))
    (report : Report.t) : Report.t :=
  {| Report.PolicyName := Report.PolicyName report;
     Report.PolicyId := Report.PolicyId report;
     Report.Arn := Report.Arn report;
     Report.Path := Report.Path report;
     Report.DefaultVersionId := Report.DefaultVersionId report;
     Report.AttachmentCount := Report.AttachmentCount report;
     Report.AttachedTo := attached;
     Report.IsAttachable := Report.IsAttachable report;
     Report.CreateDate := Report.CreateDate report;
     Report.UpdateDate := Report.UpdateDate report;
     Report.PolicyVersionList := Report.PolicyVersionList report;
     Report.PrivilegeEscalation := Report.PrivilegeEscalation report;
     Report.DataExfiltration := Report.DataExfiltration report;
     Report.ResourceExposure := Report.ResourceExposure report;
     Report.ServiceWildcard := Report.ServiceWildcard report;
     Report.CredentialsExposure := Report.CredentialsExposure report;
     Report.InfrastructureModification := Report.InfrastructureModification report;
     Report.is_excluded := Report.is_excluded report |}.

(** An ASCII capital letter. *)
Definition is_upper_ascii (c : Ascii.ascii) : bool :=
  let n := Ascii.nat_of_ascii c in (65 <=? n)%nat && (n <=? 90)%nat.

(** Whether a string holds an ASCII capital letter. *)
Fixpoint has_upper (s : string) : bool :=
  match s with
  | EmptyString => false
  | String c rest => is_upper_ascii c || has_upper rest
  end.

(** ** Sample data *)

(** Severity labels and descriptions named after the categories. *)
Definition sample_ISSUE_SEVERITY (c : RiskCategory) : string :=
  match c with
  | PrivilegeEscalation => "privilegeescalation"
  | DataExfiltration => "dataexfiltration"
  | ResourceExposure => "resourceexposure"
  | ServiceWildcard => "servicewildcard"
  | CredentialsExposure => "credentialsexposure"
  | InfrastructureModification => "infrastructuremodification"
  end.

Definition sample_RISK_DEFINITION (c : RiskCategory) : string :=
  match c with
  | PrivilegeEscalation => "Privilege escalation"
  | DataExfiltration => "Data exfiltration"
  | ResourceExposure => "Resource exposure"
  | ServiceWildcard => "Service wildcard"
  | CredentialsExposure => "Credentials exposure"
  | InfrastructureModification => "Infrastructure modification"
  end.

(** Modelled from the spec: the table [ISSUE_SEVERITY] of
    [cloudsplaining.shared.constants] is not part of the source file; the
    label of a category is a severity level, [high], [medium] or [low],
    PrivilegeEscalation being labelled [high]. *)
Definition level_ISSUE_SEVERITY (c : RiskCategory) : string :=
  match c with
  | PrivilegeEscalation => "high"
  | DataExfiltration => "medium"
  | ResourceExposure => "high"
  | ServiceWildcard => "medium"
  | CredentialsExposure => "high"
  | InfrastructureModification => "low"
  end.

(** The strings of a list value. *)
Definition sample_strings (v : value) : list string :=
  match v with
  | VList items =>
      omap (λ item, match item with VStr s => Some s | _ => None end) items
  | _ => []
  end.

(** The findings of the stand-in classifier: a document that is a list
    of strings yields one finding per string in every category. *)
Definition sample_document (document : value) : PolicyDocument :=
  let found :=
    (λ s, {| finding_type := s; finding_body := VNone |}) <$> sample_strings document in
  {| allows_privilege_escalation := found;
     allows_data_exfiltration_actions := found;
     permissions_management_without_constraints := found;
     service_wildcard := found;
     credentials_exposure := found;
     infrastructure_modification := sample_strings document |}.

(** A stand-in classifier: it raises on a missing document and returns
    [sample_document] otherwise. *)
Definition sample_PolicyDocument (document : value) (exclusions : Exclusions)
    (flag_resource_arn_statements flag_conditional_statements : bool)
  : result PolicyDocument :=
  match document with
  | VNone => Raise (AttributeError "'NoneType' object has no attribute 'get'")
  | _ => Ok (sample_document document)
  end.

(** A classifier that returns for every document. *)
Definition returning
    (classify : value → Exclusions → bool → bool → PolicyDocument)
  : value → Exclusions → bool → bool → result PolicyDocument :=
  λ document exclusions flag_resource_arn_statements flag_conditional_statements,
    Ok (classify document exclusions
          flag_resource_arn_statements flag_conditional_statements).

Definition sample_version (actions : list string) (is_default : bool) : PolicyVersion :=
  {| Document := Some (VList (VStr <$> actions));
     IsDefaultVersion := Some (VBool is_default) |}.

(** A record with the four identity keys and a version list only. *)
Definition sample_record (policy_name policy_id arn path : string)
    (versions : list PolicyVersion) : PolicyDetail :=
  {| PolicyName := Some policy_name;
     PolicyId := Some policy_id;
     Arn := Some arn;
     Path := Some path;
     DefaultVersionId := None;
     AttachmentCount := None;
     PermissionsBoundaryUsageCount := None;
     IsAttachable := None;
     CreateDate := None;
     UpdateDate := None;
     PolicyVersionList := Some versions |}.

Definition sample_aws_record : PolicyDetail :=
  sample_record "ReadOnlyAccess" "ANPAREADONLY"
    "arn:aws:iam::aws:policy/ReadOnlyAccess" "/"
    [sample_version ["s3:PutObject"] false;
     sample_version ["s3:GetObject"; "ec2:RunInstances"] true].

Definition sample_customer_record : PolicyDetail :=
  sample_record "custom1" "ANPACUSTOM1"
    "arn:aws:iam::123456789012:policy/custom1" "/"
    [sample_version ["iam:PassRole"; "ec2:RunInstances"] true].

(** A second AWS-managed record carrying the policy id of
    [sample_aws_record]. *)
Definition sample_clash_record : PolicyDetail :=
  sample_record "PowerUserAccess" "ANPAREADONLY"
    "arn:aws:iam::aws:policy/PowerUserAccess" "/"
    [sample_version ["iam:PassRole"] true].

(** A service-role record whose path has no leading slash. *)
Definition sample_service_role_record : PolicyDetail :=
  sample_record "AWSServiceRoleForFoo" "ANPASERVICE"
    "arn:aws:iam::aws:policy/aws-service-role/AWSServiceRoleForFoo"
    "aws-service-role/foo/"
    [sample_version ["ec2:RunInstances"] true].

(** A record without a default version. *)
Definition sample_no_default_record : PolicyDetail :=
  sample_record "draft" "ANPADRAFT"
    "arn:aws:iam::123456789012:policy/draft" "/"
    [sample_version ["s3:GetObject"] false].

(** A matcher that excludes the one identifier [custom1]. *)
Definition sample_exclusions : Exclusions :=
  {| is_policy_excluded := λ identifier, String.eqb identifier "custom1" |}.

Definition sample_role : Principal :=
  {| name := "admin-role";
     aws_managed_policies := {[ "ANPAREADONLY" := VStr "ReadOnlyAccess" ]};
     customer_managed_policies := {[ "ANPACUSTOM1" := VStr "custom1" ]} |}.

Definition sample_inventory : IamData :=
  {| groups := []; users := []; roles := [("AROAADMIN", sample_role)] |}.

(** An excluded policy constructed from [sample_customer_record] under
    [sample_exclusions], and the same record constructed without rules. *)
Definition sample_policy (exclusions : Exclusions) (severity : list string)
  : ManagedPolicy.t :=
  {| ManagedPolicy.policy_detail := sample_customer_record;
     ManagedPolicy.flag_conditional_statements := false;
     ManagedPolicy.flag_resource_arn_statements := false;
     ManagedPolicy.policy_name := "custom1";
     ManagedPolicy.policy_id := "ANPACUSTOM1";
     ManagedPolicy.arn := "arn:aws:iam::123456789012:policy/custom1";
     ManagedPolicy.path := "/";
     ManagedPolicy.default_version_id := VNone;
     ManagedPolicy.attachment_count := VNone;
     ManagedPolicy.permissions_boundary_usage_count := VNone;
     ManagedPolicy.is_attachable := VNone;
     ManagedPolicy.create_date := VNone;
     ManagedPolicy.update_date := VNone;
     ManagedPolicy.iam_data := empty_iam_data;
     ManagedPolicy.exclusions := exclusions;
     ManagedPolicy.is_excluded := is_policy_excluded exclusions "custom1";
     ManagedPolicy.policy_version_list :=
       [sample_version ["iam:PassRole"; "ec2:RunInstances"] true];
     ManagedPolicy.policy_document :=
       sample_document (VList [VStr "iam:PassRole"; VStr "ec2:RunInstances"]);
     ManagedPolicy.severity := severity |}.

Definition sample_excluded_policy : ManagedPolicy.t :=
  sample_policy sample_exclusions [].

(** A record with every metadata key. *)
Definition sample_full_record : PolicyDetail :=
  {| PolicyName := Some "custom1";
     PolicyId := Some "ANPACUSTOM1";
     Arn := Some "arn:aws:iam::123456789012:policy/custom1";
     Path := Some "/";
     DefaultVersionId := Some (VStr "v2");
     AttachmentCount := Some (VInt 1);
     PermissionsBoundaryUsageCount := Some (VInt 0);
     IsAttachable := Some (VBool true);
     CreateDate := Some (VStr "2020-01-01T00:00:00Z");
     UpdateDate := Some (VStr "2020-02-01T00:00:00Z");
     PolicyVersionList :=
       Some [sample_version ["iam:PassRole"; "ec2:RunInstances"] true] |}.

(** The collection the constructor builds from records, without rules,
    flags or severity filter. *)
Definition sample_collection (records : list PolicyDetail) : ManagedPolicyDetails.t :=
  match ManagedPolicyDetails.__init__ sample_PolicyDocument records
          empty_exclusions false false None with
  | Ok self => self
  | Raise _ =>
      {| ManagedPolicyDetails.policy_details := [];
         ManagedPolicyDetails.exclusions := empty_exclusions;
         ManagedPolicyDetails.flag_conditional_statements := false;
         ManagedPolicyDetails.flag_resource_arn_statements := false;
         ManagedPolicyDetails.iam_data := empty_iam_data |}
  end.

(** The object constructed from [sample_aws_record]. *)
Definition sample_aws_policy : ManagedPolicy.t :=
  {| ManagedPolicy.policy_detail := sample_aws_record;
     ManagedPolicy.flag_conditional_statements := false;
     ManagedPolicy.flag_resource_arn_statements := false;
     ManagedPolicy.policy_name := "ReadOnlyAccess";
     ManagedPolicy.policy_id := "ANPAREADONLY";
     ManagedPolicy.arn := "arn:aws:iam::aws:policy/ReadOnlyAccess";
     ManagedPolicy.path := "/";
     ManagedPolicy.default_version_id := VNone;
     ManagedPolicy.attachment_count := VNone;
     ManagedPolicy.permissions_boundary_usage_count := VNone;
     ManagedPolicy.is_attachable := VNone;
     ManagedPolicy.create_date := VNone;
     ManagedPolicy.update_date := VNone;
     ManagedPolicy.iam_data := empty_iam_data;
     ManagedPolicy.exclusions := empty_exclusions;
     ManagedPolicy.is_excluded := false;
     ManagedPolicy.policy_version_list :=
       [sample_version ["s3:PutObject"] false;
        sample_version ["s3:GetObject"; "ec2:RunInstances"] true];
     ManagedPolicy.policy_document :=
       sample_document (VList [VStr "s3:GetObject"; VStr "ec2:RunInstances"]);
     ManagedPolicy.severity := [] |}.

(** * Properties *)

(** The four [policy_detail[...]] reads of the constructor: each key is
    present, or the goal is settled by the [KeyError]. *)
Ltac read_identity_keys policy_detail :=
  destruct (PolicyName policy_detail) as [?policy_name|]; [|done];
  destruct (PolicyId policy_detail) as [?policy_id|]; [|done];
  destruct (Arn policy_detail) as [?arn|]; [|done];
  destruct (Path policy_detail) as [?path|]; [|done].

(** ** The samples are what the constructors build *)

Lemma sample_policy_constructed exclusions severity :
  is_policy_excluded exclusions "ANPACUSTOM1" = false →
  is_policy_excluded exclusions "/" = false →
  ManagedPolicy.__init__ sample_PolicyDocument sample_customer_record
    exclusions false false (Some severity)
  = Ok (sample_policy exclusions severity).
Proof.
  intros Hid Hpath. unfold ManagedPolicy.__init__, sample_policy. simpl.
  unfold ManagedPolicy._is_excluded. rewrite Hid, Hpath.
  by rewrite !orb_false_r.
Qed.

(** ** Attachment cross-reference *)

Lemma getAttached_principals_excluded self principalType principals attached :
  ManagedPolicy.is_excluded self = true →
  ManagedPolicy.getAttached_principals self principalType principals attached
  = match principals with
    | [] => ManagedPolicy.Next attached
    | _ :: _ => ManagedPolicy.Return ∅
    end.
Proof.
  intros Hexcluded. destruct principals as [|[principalID principal] rest]; simpl.
  - reflexivity.
  - by rewrite Hexcluded.
Qed.

Lemma no_attachments_lookup key names :
  no_attachments !! key = Some names → names = [].
Proof.
  unfold no_attachments. intros H.
  repeat (apply lookup_insert_Some in H as [[_ H]|[_ H]]; [congruence|]).
  apply lookup_singleton_Some in H as [_ H]. congruence.
Qed.

Lemma no_attachments_not_empty : no_attachments ≠ ∅.
Proof.
  intros H. apply (f_equal (λ m : gmap string (list string), m !! "roles")) in H.
  by vm_compute in H.
Qed.

(** For a policy that is not excluded, the inner loop appends the names
    of the principals that point to the policy. *)
Lemma getAttached_principals_not_excluded self principalType principals attached :
  ManagedPolicy.is_excluded self = false →
  ManagedPolicy.getAttached_principals self principalType principals attached
  = ManagedPolicy.Next
      (alter (λ names, names ++ attached_names self principals)
         (principal_key principalType) attached).
Proof.
  intros Hexcluded. revert attached.
  induction principals as [|[principalID principal] rest IH]; intros attached.
  - simpl. f_equal. symmetry. apply alter_id. intros names _. apply app_nil_r.
  - cbn [ManagedPolicy.getAttached_principals]. rewrite Hexcluded, IH. f_equal.
    unfold attached_names, ManagedPolicy.managed_by.
    rewrite fmap_cons. cbn [snd]. rewrite filter_cons.
    destruct (is_aws_managed (ManagedPolicy.arn self));
      cbn [String.eqb Ascii.eqb Bool.eqb]; rewrite (right_id_L ∅ (∪));
      (destruct (decide (is_Some _)) as [Hpoints|Hpoints];
       [rewrite bool_decide_eq_true_2 by done
       |by rewrite bool_decide_eq_false_2 by done]);
      rewrite alter_alter_eq; apply alter_ext; intros names _; simpl;
      by rewrite <- app_assoc.
Qed.

(** For a policy that is not excluded, [getAttached] lists under each
    principal type the names of the principals of that type that point
    to the policy. *)
Lemma getAttached_not_excluded self :
  ManagedPolicy.is_excluded self = false →
  ManagedPolicy.getAttached self
  = {[ "roles" := attached_names self (roles (ManagedPolicy.iam_data self));
       "groups" := attached_names self (groups (ManagedPolicy.iam_data self));
       "users" := attached_names self (users (ManagedPolicy.iam_data self)) ]}.
Proof.
  intros Hexcluded. unfold ManagedPolicy.getAttached. simpl.
  rewrite !getAttached_principals_not_excluded by done. simpl.
  apply map_eq. intros key. rewrite !lookup_alter.
  destruct (decide ("users" = key)) as [<-|Husers]; [done|].
  destruct (decide ("groups" = key)) as [<-|Hgroups]; [done|].
  destruct (decide ("roles" = key)) as [<-|Hroles]; [done|].
  by rewrite !lookup_insert_ne, !lookup_singleton_ne, ?lookup_insert_ne,
    ?lookup_singleton_ne by done.
Qed.

(** C1, as stated, fails: once the inventory holds a principal, an
    excluded policy reports the empty dict, which has none of the keys
    [roles], [groups], [users]. *)
Lemma excluded_attachment_report_counterexample :
  ManagedPolicy.__init__ sample_PolicyDocument sample_customer_record
    sample_exclusions false false None = Ok sample_excluded_policy
  ∧ ManagedPolicy.is_excluded sample_excluded_policy = true
  ∧ ManagedPolicy.getAttached
      (ManagedPolicy.set_iam_data sample_inventory sample_excluded_policy) = ∅
  ∧ ManagedPolicy.getAttached
      (ManagedPolicy.set_iam_data sample_inventory sample_excluded_policy)
    ≠ no_attachments.
Proof.
  assert (ManagedPolicy.getAttached
            (ManagedPolicy.set_iam_data sample_inventory sample_excluded_policy) = ∅)
    as Hempty by reflexivity.
  split_and!; [reflexivity | reflexivity | exact Hempty |].
  rewrite Hempty. intros H. by apply no_attachments_not_empty.
Qed.

(** C1, amended: for every policy whose exclusion flag is true and every
    inventory snapshot, [getAttached] names no principal. It returns
    [{roles: [], groups: [], users: []}] when the inventory holds no
    principal at all, and the empty dict [{}] as soon as the inventory
    holds a principal of any type. *)
Theorem excluded_attachment_report (self : ManagedPolicy.t) (inventory : IamData) :
  ManagedPolicy.is_excluded self = true →
  (no_principals inventory →
     ManagedPolicy.getAttached (ManagedPolicy.set_iam_data inventory self)
     = no_attachments)
  ∧ (¬ no_principals inventory →
     ManagedPolicy.getAttached (ManagedPolicy.set_iam_data inventory self) = ∅)
  ∧ (∀ key names,
       ManagedPolicy.getAttached (ManagedPolicy.set_iam_data inventory self) !! key
       = Some names → names = []).
Proof.
  intros Hexcluded.
  set (self' := ManagedPolicy.set_iam_data inventory self).
  assert (ManagedPolicy.is_excluded self' = true) as Hexcluded' by done.
  assert (ManagedPolicy.getAttached self'
          = match roles inventory, groups inventory, users inventory with
            | [], [], [] => no_attachments
            | _, _, _ => ∅
            end) as Hshape.
  { unfold ManagedPolicy.getAttached. simpl.
    rewrite !getAttached_principals_excluded by done.
    destruct (roles inventory); [|done].
    rewrite !getAttached_principals_excluded by done.
    destruct (groups inventory); [|done].
    rewrite !getAttached_principals_excluded by done.
    by destruct (users inventory). }
  rewrite Hshape. split_and!.
  - by intros (-> & -> & ->).
  - intros Hsome. unfold no_principals in Hsome.
    destruct (roles inventory), (groups inventory), (users inventory);
      try done.
    by destruct Hsome.
  - intros key names.
    destruct (roles inventory), (groups inventory), (users inventory);
      try (by rewrite lookup_empty).
    apply no_attachments_lookup.
Qed.

Lemma excluded_attachment_report_witness :
  ManagedPolicy.is_excluded sample_excluded_policy = true
  ∧ ManagedPolicy.getAttached
      (ManagedPolicy.set_iam_data sample_inventory sample_excluded_policy) = ∅.
Proof.
  split; [reflexivity|].
  destruct (excluded_attachment_report sample_excluded_policy sample_inventory
              eq_refl) as (_ & Hprincipal & _).
  apply Hprincipal. intros (Hroles & _ & _). discriminate Hroles.
Defined.

(** ** Exclusion *)

(** What the glob of [_is_excluded] tests under the modelled matcher. *)
Lemma is_name_excluded_service_role_slash path :
  is_name_excluded path "/aws-service-role*" = String.prefix "/aws-service-role" path.
Proof. reflexivity. Qed.

Lemma is_name_excluded_service_role path :
  is_name_excluded path "aws-service-role*" = String.prefix "aws-service-role" path.
Proof. reflexivity. Qed.

(** The flag of a constructed policy is the value of [_is_excluded] on
    its name, id and path: rules on any of the three, or a path under
    [/aws-service-role]. *)
Lemma is_excluded_constructed new_PolicyDocument policy_detail exclusions
    flag_conditional_statements flag_resource_arn_statements severity self :
  ManagedPolicy.__init__ new_PolicyDocument policy_detail exclusions
    flag_conditional_statements flag_resource_arn_statements severity = Ok self →
  ManagedPolicy.is_excluded self = true ↔
    is_policy_excluded exclusions (ManagedPolicy.policy_name self) = true
    ∨ is_policy_excluded exclusions (ManagedPolicy.policy_id self) = true
    ∨ is_policy_excluded exclusions (ManagedPolicy.path self) = true
    ∨ String.prefix "/aws-service-role" (ManagedPolicy.path self) = true.
Proof.
  unfold ManagedPolicy.__init__. intros Hinit.
  read_identity_keys policy_detail.
  simpl in Hinit.
  destruct (ManagedPolicy._policy_document _ _ _ _ _ _) as [document|];
    [|done].
  simpl in Hinit. injection Hinit as <-. simpl.
  unfold ManagedPolicy._is_excluded.
  rewrite is_name_excluded_service_role_slash, !orb_true_iff. tauto.
Qed.

(** C2: the flag misses a service-role path written without the leading
    slash. With an empty rule set, the record whose path is
    [aws-service-role/foo/] is constructed with [is_excluded = False],
    although its path begins with [aws-service-role]; with the leading
    slash the flag is set, and the constructor of the collection drops
    the record under both spellings. *)
Theorem is_excluded_misses_path_without_slash
    (new_PolicyDocument : value → Exclusions → bool → bool → PolicyDocument) :
  Path sample_service_role_record = Some "aws-service-role/foo/"
  ∧ String.prefix "aws-service-role" "aws-service-role/foo/" = true
  ∧ ManagedPolicy.is_excluded <$>
      ManagedPolicy.__init__ (returning new_PolicyDocument) sample_service_role_record
        empty_exclusions false false None = Ok false
  ∧ ManagedPolicy.is_excluded <$>
      ManagedPolicy.__init__ (returning new_PolicyDocument)
        (sample_record "AWSServiceRoleForFoo" "ANPASERVICE"
           "arn:aws:iam::aws:policy/aws-service-role/AWSServiceRoleForFoo"
           "/aws-service-role/foo/" [sample_version ["ec2:RunInstances"] true])
        empty_exclusions false false None = Ok true
  ∧ ManagedPolicyDetails.policy_details <$>
      ManagedPolicyDetails.__init__ (returning new_PolicyDocument)
        [sample_service_role_record]
        empty_exclusions false false None = Ok [].
Proof. by split_and!. Qed.

(** ** Severity-gated reports *)

(** Every category of a report carries the fixed label and description,
    and the findings of the document when [severity_selects] holds, else
    the empty list. *)
Lemma report_entry ISSUE_SEVERITY RISK_DEFINITION extended self c :
  reported extended c →
  report_severity (report_of ISSUE_SEVERITY RISK_DEFINITION extended self) c
    = Some (ISSUE_SEVERITY c)
  ∧ report_description (report_of ISSUE_SEVERITY RISK_DEFINITION extended self) c
    = Some (RISK_DEFINITION c)
  ∧ report_findings (report_of ISSUE_SEVERITY RISK_DEFINITION extended self) c
    = Some (if ManagedPolicy.severity_selects ISSUE_SEVERITY self c
            then document_findings (ManagedPolicy.policy_document self) c
            else no_findings c).
Proof.
  intros Hreported. destruct extended, c; simpl;
    try (specialize (Hreported eq_refl); discriminate);
    by destruct (ManagedPolicy.severity_selects _ _ _).
Qed.

Lemma severity_selects_unfiltered ISSUE_SEVERITY self c :
  ManagedPolicy.severity self = [] →
  ManagedPolicy.severity_selects ISSUE_SEVERITY self c = true.
Proof.
  intros Hnil. unfold ManagedPolicy.severity_selects. rewrite Hnil.
  by rewrite orb_true_r.
Qed.

Lemma severity_selects_single ISSUE_SEVERITY self c label :
  ManagedPolicy.severity self = [label] →
  ManagedPolicy.severity_selects ISSUE_SEVERITY self c
  = bool_decide (ISSUE_SEVERITY c = lower label).
Proof.
  intros Hone. unfold ManagedPolicy.severity_selects. rewrite Hone. simpl.
  rewrite orb_false_r. apply bool_decide_ext, list_elem_of_singleton.
Qed.

(** Under a filter with one entry, a category carries the findings of
    the document exactly when its label in [ISSUE_SEVERITY] is the
    lowered entry: the label itself is compared as it stands. *)
Lemma single_filter_findings ISSUE_SEVERITY RISK_DEFINITION extended self c label :
  reported extended c →
  ManagedPolicy.severity self = [label] →
  report_findings (report_of ISSUE_SEVERITY RISK_DEFINITION extended self) c
  = Some (if bool_decide (ISSUE_SEVERITY c = lower label)
          then document_findings (ManagedPolicy.policy_document self) c
          else no_findings c).
Proof.
  intros Hreported Hone.
  destruct (report_entry ISSUE_SEVERITY RISK_DEFINITION extended self c Hreported)
    as (_ & _ & ->).
  by rewrite (severity_selects_single _ _ _ _ Hone).
Qed.

(** C3, as stated, fails: the filter is compared with the severity
    labels of [ISSUE_SEVERITY]. Where PrivilegeEscalation is labelled
    [high], the filter [["privilegeescalation"]] leaves the findings of
    PrivilegeEscalation empty although the document has some. *)
Lemma severity_filter_counterexample :
  ManagedPolicy.severity (sample_policy empty_exclusions ["privilegeescalation"])
  = ["privilegeescalation"]
  ∧ allows_privilege_escalation
      (ManagedPolicy.policy_document
         (sample_policy empty_exclusions ["privilegeescalation"])) ≠ []
  ∧ Report.findings
      (Report.PrivilegeEscalation
         (ManagedPolicy.json level_ISSUE_SEVERITY sample_RISK_DEFINITION
            (sample_policy empty_exclusions ["privilegeescalation"]))) = []
  ∧ Report.findings
      (Report.PrivilegeEscalation
         (ManagedPolicy.json_large level_ISSUE_SEVERITY sample_RISK_DEFINITION
            (sample_policy empty_exclusions ["privilegeescalation"]))) = []
  ∧ report_findings
      (report_of level_ISSUE_SEVERITY sample_RISK_DEFINITION true
         (sample_policy empty_exclusions ["privilegeescalation"]))
      PrivilegeEscalation
    ≠ Some (document_findings
              (ManagedPolicy.policy_document
                 (sample_policy empty_exclusions ["privilegeescalation"]))
              PrivilegeEscalation).
Proof. by split_and!. Qed.

(** C3, amended: with the empty severity filter every category of both
    report variants carries the unfiltered findings of the resolved
    document. With a filter of one entry, exactly the categories whose
    label in [ISSUE_SEVERITY] is the lowered entry carry the findings of
    the document; every other category carries the empty list, with its
    label and description in place. So [["privilegeescalation"]] selects
    PrivilegeEscalation alone where that is the label of PrivilegeEscalation
    and of no other category, and selects nothing where no label is that
    string. *)
Theorem severity_filter_selects_by_label
    (ISSUE_SEVERITY RISK_DEFINITION : RiskCategory → string)
    (extended : bool) (self : ManagedPolicy.t) (c : RiskCategory) :
  reported extended c →
  (ManagedPolicy.severity self = [] →
     report_findings (report_of ISSUE_SEVERITY RISK_DEFINITION extended self) c
     = Some (document_findings (ManagedPolicy.policy_document self) c))
  ∧ (∀ entry,
       ManagedPolicy.severity self = [entry] →
       report_findings (report_of ISSUE_SEVERITY RISK_DEFINITION extended self) c
       = Some (if decide (ISSUE_SEVERITY c = lower entry)
               then document_findings (ManagedPolicy.policy_document self) c
               else no_findings c)
       ∧ report_severity (report_of ISSUE_SEVERITY RISK_DEFINITION extended self) c
         = Some (ISSUE_SEVERITY c)
       ∧ report_description
           (report_of ISSUE_SEVERITY RISK_DEFINITION extended self) c
         = Some (RISK_DEFINITION c))
  ∧ (ManagedPolicy.severity self = ["privilegeescalation"] →
     ISSUE_SEVERITY PrivilegeEscalation = "privilegeescalation" →
     (∀ c', c' ≠ PrivilegeEscalation → ISSUE_SEVERITY c' ≠ "privilegeescalation") →
     report_findings (report_of ISSUE_SEVERITY RISK_DEFINITION extended self) c
     = Some (if decide (c = PrivilegeEscalation)
             then document_findings (ManagedPolicy.policy_document self) c
             else no_findings c))
  ∧ (ManagedPolicy.severity self = ["privilegeescalation"] →
     (∀ c', ISSUE_SEVERITY c' ≠ "privilegeescalation") →
     report_findings (report_of ISSUE_SEVERITY RISK_DEFINITION extended self) c
     = Some (no_findings c)).
Proof.
  intros Hreported.
  destruct (report_entry ISSUE_SEVERITY RISK_DEFINITION extended self c Hreported)
    as (Hseverity & Hdescription & Hfindings).
  split_and!.
  - intros Hnil. rewrite Hfindings.
    by rewrite severity_selects_unfiltered.
  - intros entry Hone. split_and!; [|done..].
    rewrite (single_filter_findings _ _ _ _ _ _ Hreported Hone).
    destruct (decide (ISSUE_SEVERITY c = lower entry)).
    + by rewrite bool_decide_eq_true_2.
    + by rewrite bool_decide_eq_false_2.
  - intros Hone Hlabel Hothers.
    rewrite (single_filter_findings _ _ _ _ _ _ Hreported Hone).
    change (lower "privilegeescalation") with "privilegeescalation".
    destruct (decide (c = PrivilegeEscalation)) as [->|Hne].
    + by rewrite bool_decide_eq_true_2.
    + by rewrite bool_decide_eq_false_2 by by apply Hothers.
  - intros Hone Hnone.
    rewrite (single_filter_findings _ _ _ _ _ _ Hreported Hone).
    change (lower "privilegeescalation") with "privilegeescalation".
    by rewrite bool_decide_eq_false_2 by apply Hnone.
Qed.

Lemma severity_filter_selects_by_label_witness :
  report_findings
    (report_of level_ISSUE_SEVERITY sample_RISK_DEFINITION true
       (sample_policy empty_exclusions [])) InfrastructureModification
  = Some (ActionList ["iam:PassRole"; "ec2:RunInstances"])
  ∧ report_findings
      (report_of level_ISSUE_SEVERITY sample_RISK_DEFINITION false
         (sample_policy empty_exclusions ["HIGH"])) PrivilegeEscalation
    = Some (FindingList
              [{| finding_type := "iam:PassRole"; finding_body := VNone |};
               {| finding_type := "ec2:RunInstances"; finding_body := VNone |}])
  ∧ report_findings
      (report_of level_ISSUE_SEVERITY sample_RISK_DEFINITION false
         (sample_policy empty_exclusions ["HIGH"])) DataExfiltration
    = Some (FindingList [])
  ∧ report_severity
      (report_of level_ISSUE_SEVERITY sample_RISK_DEFINITION false
         (sample_policy empty_exclusions ["HIGH"])) DataExfiltration
    = Some "medium"
  ∧ report_findings
      (report_of sample_ISSUE_SEVERITY sample_RISK_DEFINITION false
         (sample_policy empty_exclusions ["privilegeescalation"])) DataExfiltration
    = Some (FindingList [])
  ∧ report_findings
      (report_of level_ISSUE_SEVERITY sample_RISK_DEFINITION false
         (sample_policy empty_exclusions ["privilegeescalation"]))
      PrivilegeEscalation
    = Some (FindingList []).
Proof.
  assert (reported true InfrastructureModification) as Hinfra by done.
  assert (reported false PrivilegeEscalation) as Hescalation
    by (intros H; discriminate H).
  assert (reported false DataExfiltration) as Hexfiltration
    by (intros H; discriminate H).
  split_and!.
  - destruct (severity_filter_selects_by_label level_ISSUE_SEVERITY
                sample_RISK_DEFINITION true (sample_policy empty_exclusions [])
                InfrastructureModification Hinfra) as (Hunfiltered & _).
    apply Hunfiltered. reflexivity.
  - destruct (severity_filter_selects_by_label level_ISSUE_SEVERITY
                sample_RISK_DEFINITION false
                (sample_policy empty_exclusions ["HIGH"])
                PrivilegeEscalation Hescalation) as (_ & Hone & _).
    destruct (Hone "HIGH" eq_refl) as (Hfindings & _). exact Hfindings.
  - destruct (severity_filter_selects_by_label level_ISSUE_SEVERITY
                sample_RISK_DEFINITION false
                (sample_policy empty_exclusions ["HIGH"])
                DataExfiltration Hexfiltration) as (_ & Hone & _).
    destruct (Hone "HIGH" eq_refl) as (Hfindings & _). exact Hfindings.
  - destruct (severity_filter_selects_by_label level_ISSUE_SEVERITY
                sample_RISK_DEFINITION false
                (sample_policy empty_exclusions ["HIGH"])
                DataExfiltration Hexfiltration) as (_ & Hone & _).
    destruct (Hone "HIGH" eq_refl) as (_ & Hseverity & _). exact Hseverity.
  - destruct (severity_filter_selects_by_label sample_ISSUE_SEVERITY
                sample_RISK_DEFINITION false
                (sample_policy empty_exclusions ["privilegeescalation"])
                DataExfiltration Hexfiltration) as (_ & _ & Halone & _).
    apply Halone; [reflexivity | reflexivity | intros c' Hne; by destruct c'].
  - destruct (severity_filter_selects_by_label level_ISSUE_SEVERITY
                sample_RISK_DEFINITION false
                (sample_policy empty_exclusions ["privilegeescalation"])
                PrivilegeEscalation Hescalation) as (_ & _ & _ & Hnothing).
    apply Hnothing; [reflexivity | intros c'; by destruct c'].
Defined.

(** ** Finding links *)

Lemma getFindingLinks_lookup findings finding_type' :
  ManagedPolicy.getFindingLinks findings !! finding_type'
  = if decide (finding_type' ∈ finding_type <$> findings)
    then Some (finding_link finding_type') else None.
Proof.
  unfold ManagedPolicy.getFindingLinks.
  change (None : option string)
    with ((∅ : gmap string string) !! finding_type').
  generalize (∅ : gmap string string).
  induction findings as [|finding findings IH]; intros links.
  - by destruct (decide _) as [?%elem_of_nil|].
  - cbn [foldl]. rewrite IH, fmap_cons.
    destruct (decide (finding_type' ∈ finding_type <$> findings)) as [Hin|Hnotin].
    + rewrite decide_True; [done|]. by apply list_elem_of_further.
    + destruct (decide (finding_type finding = finding_type')) as [Heq|Hne].
      * rewrite decide_True by (rewrite Heq; apply list_elem_of_here).
        rewrite <- Heq. by rewrite lookup_insert_eq.
      * rewrite lookup_insert_ne by done.
        rewrite decide_False; [done|].
        intros [?|?]%elem_of_cons; congruence.
Qed.

(** C5: in both report variants PrivilegeEscalation, and no other
    category, has a links mapping. Its findings are the privilege
    escalation findings of the document when the severity filter selects
    the category and the empty list when it does not; the links map
    exactly the types of those findings to their documentation URL, so
    they are empty when the findings are suppressed. *)
Theorem privilege_escalation_links
    (ISSUE_SEVERITY RISK_DEFINITION : RiskCategory → string)
    (extended : bool) (self : ManagedPolicy.t) :
  ∃ links,
    report_links (report_of ISSUE_SEVERITY RISK_DEFINITION extended self)
      PrivilegeEscalation = Some links
    ∧ Report.findings
        (Report.PrivilegeEscalation
           (report_of ISSUE_SEVERITY RISK_DEFINITION extended self))
      = (if ManagedPolicy.severity_selects ISSUE_SEVERITY self PrivilegeEscalation
         then allows_privilege_escalation (ManagedPolicy.policy_document self)
         else [])
    ∧ (∀ finding_type' url,
         links !! finding_type' = Some url ↔
         (∃ finding,
            finding ∈ Report.findings
              (Report.PrivilegeEscalation
                 (report_of ISSUE_SEVERITY RISK_DEFINITION extended self))
            ∧ finding_type finding = finding_type')
         ∧ url = "https://cloudsplaining.readthedocs.io/en/latest/glossary/privilege-escalation/#"
                 +:+ finding_type')
    ∧ (ManagedPolicy.severity_selects ISSUE_SEVERITY self PrivilegeEscalation = true →
       ∀ finding,
         finding ∈ allows_privilege_escalation (ManagedPolicy.policy_document self) →
         links !! finding_type finding
         = Some ("https://cloudsplaining.readthedocs.io/en/latest/glossary/privilege-escalation/#"
                 +:+ finding_type finding))
    ∧ (∀ c, c ≠ PrivilegeEscalation →
         report_links (report_of ISSUE_SEVERITY RISK_DEFINITION extended self) c
         = None)
    ∧ (ManagedPolicy.severity_selects ISSUE_SEVERITY self PrivilegeEscalation = false →
       Report.findings
         (Report.PrivilegeEscalation
            (report_of ISSUE_SEVERITY RISK_DEFINITION extended self)) = []
       ∧ links = ∅).
Proof.
  set (included :=
         if ManagedPolicy.severity_selects ISSUE_SEVERITY self PrivilegeEscalation
         then allows_privilege_escalation (ManagedPolicy.policy_document self)
         else []).
  assert (Report.findings
            (Report.PrivilegeEscalation
               (report_of ISSUE_SEVERITY RISK_DEFINITION extended self)) = included)
    as Hfindings by by destruct extended.
  exists (ManagedPolicy.getFindingLinks included).
  rewrite Hfindings. split_and!.
  - by destruct extended.
  - done.
  - intros finding_type' url. rewrite getFindingLinks_lookup.
    fold (finding_link finding_type').
    destruct (decide (finding_type' ∈ finding_type <$> included)) as [Hin|Hnotin].
    + apply list_elem_of_fmap in Hin as (finding & -> & Hin).
      split; [intros [= <-]; eauto | intros [_ ->]; done].
    + split; [done|]. intros [(finding & Hin & <-) _].
      destruct Hnotin. apply list_elem_of_fmap. eauto.
  - intros Hselected finding Hin. subst included. rewrite Hselected.
    rewrite getFindingLinks_lookup.
    rewrite decide_True by by apply list_elem_of_fmap_2.
    reflexivity.
  - intros c Hc. by destruct extended, c.
  - intros Hsuppressed. subst included. by rewrite Hsuppressed.
Qed.

Lemma privilege_escalation_links_witness :
  (∃ links,
     report_links
       (report_of sample_ISSUE_SEVERITY sample_RISK_DEFINITION false
          (sample_policy empty_exclusions ["PrivilegeEscalation"]))
       PrivilegeEscalation = Some links
     ∧ links !! "iam:PassRole"
       = Some "https://cloudsplaining.readthedocs.io/en/latest/glossary/privilege-escalation/#iam:PassRole"
     ∧ links !! "ec2:RunInstances"
       = Some "https://cloudsplaining.readthedocs.io/en/latest/glossary/privilege-escalation/#ec2:RunInstances")
  ∧ (∃ links,
       report_links
         (report_of sample_ISSUE_SEVERITY sample_RISK_DEFINITION false
            (sample_policy empty_exclusions ["dataexfiltration"]))
         PrivilegeEscalation = Some links
       ∧ links = ∅).
Proof.
  split.
  - destruct (privilege_escalation_links sample_ISSUE_SEVERITY
                sample_RISK_DEFINITION false
                (sample_policy empty_exclusions ["PrivilegeEscalation"]))
      as (links & Hlinks & _ & _ & Hselected & _).
    exists links. split; [exact Hlinks|].
    split.
    + apply (Hselected eq_refl
               {| finding_type := "iam:PassRole"; finding_body := VNone |}).
      apply list_elem_of_here.
    + apply (Hselected eq_refl
               {| finding_type := "ec2:RunInstances"; finding_body := VNone |}).
      apply list_elem_of_further, list_elem_of_here.
  - destruct (privilege_escalation_links sample_ISSUE_SEVERITY
                sample_RISK_DEFINITION false
                (sample_policy empty_exclusions ["dataexfiltration"]))
      as (links & Hlinks & _ & _ & _ & _ & Hsuppressed).
    exists links. split; [exact Hlinks|].
    apply Hsuppressed. reflexivity.
Defined.

(** ** Construction *)

Lemma is_default_version_true policy_version :
  ManagedPolicy.is_default_version policy_version = true ↔
  IsDefaultVersion policy_version = Some (VBool true).
Proof.
  unfold ManagedPolicy.is_default_version.
  destruct (IsDefaultVersion policy_version) as [[| [|] | | | |]|];
    split; congruence.
Qed.

(** [_policy_document] hands the document of the first version flagged
    default to the classifier and returns or raises as the classifier
    does. *)
Lemma _policy_document_first new_PolicyDocument before policy_version after
    exclusions flag_resource_arn_statements flag_conditional_statements arn :
  (∀ earlier, earlier ∈ before →
     IsDefaultVersion earlier ≠ Some (VBool true)) →
  IsDefaultVersion policy_version = Some (VBool true) →
  ManagedPolicy._policy_document new_PolicyDocument
    (before ++ policy_version :: after) exclusions
    flag_resource_arn_statements flag_conditional_statements arn
  = new_PolicyDocument (get (Document policy_version)) exclusions
      flag_resource_arn_statements flag_conditional_statements.
Proof.
  intros Hbefore Hflag%is_default_version_true.
  induction before as [|earlier before IH]; simpl.
  - by rewrite Hflag.
  - destruct (ManagedPolicy.is_default_version earlier) eqn:Hearlier.
    + apply is_default_version_true in Hearlier.
      destruct (Hbefore earlier); [apply list_elem_of_here | done].
    + apply IH. intros other Hin. apply Hbefore. by apply list_elem_of_further.
Qed.

(** [_policy_document] raises when no version is flagged default. *)
Lemma _policy_document_raise new_PolicyDocument policy_version_list exclusions
    flag_resource_arn_statements flag_conditional_statements arn :
  (∀ policy_version, policy_version ∈ policy_version_list →
     IsDefaultVersion policy_version ≠ Some (VBool true)) →
  ManagedPolicy._policy_document new_PolicyDocument policy_version_list exclusions
    flag_resource_arn_statements flag_conditional_statements arn
  = Raise (no_default_version arn).
Proof.
  induction policy_version_list as [|policy_version rest IH]; simpl; [done|].
  intros Hnone.
  destruct (ManagedPolicy.is_default_version policy_version) eqn:Hdefault.
  - apply is_default_version_true in Hdefault.
    destruct (Hnone policy_version); [apply list_elem_of_here | done].
  - apply IH. intros later Hin. apply Hnone. by apply list_elem_of_further.
Qed.

(** A version list has a first version flagged default, or none. *)
Lemma first_default_version_or_none (policy_version_list : list PolicyVersion) :
  (∃ before policy_version after,
     policy_version_list = before ++ policy_version :: after
     ∧ (∀ earlier, earlier ∈ before →
          IsDefaultVersion earlier ≠ Some (VBool true))
     ∧ IsDefaultVersion policy_version = Some (VBool true))
  ∨ (∀ policy_version, policy_version ∈ policy_version_list →
       IsDefaultVersion policy_version ≠ Some (VBool true)).
Proof.
  induction policy_version_list as [|first rest IH].
  - right. by intros ? ?%elem_of_nil.
  - destruct (ManagedPolicy.is_default_version first) eqn:Hfirst.
    + left. exists [], first, rest. split_and!; [done| |].
      * by intros ? ?%elem_of_nil.
      * by apply is_default_version_true.
    + assert (IsDefaultVersion first ≠ Some (VBool true)) as Hnot.
      { intros Htrue%is_default_version_true. congruence. }
      destruct IH as [(before & policy_version & after & -> & Hbefore & Hflag)|Hnone].
      * left. exists (first :: before), policy_version, after.
        split_and!; [done| |done].
        intros earlier [->|Hin]%elem_of_cons; [done | by apply Hbefore].
      * right. intros policy_version [->|Hin]%elem_of_cons;
          [done | by apply Hnone].
Qed.

(** [_policy_document] returns only what the classifier returns for the
    document of the first version flagged default. *)
Lemma _policy_document_ok new_PolicyDocument policy_version_list exclusions
    flag_resource_arn_statements flag_conditional_statements arn document :
  ManagedPolicy._policy_document new_PolicyDocument policy_version_list exclusions
    flag_resource_arn_statements flag_conditional_statements arn = Ok document →
  ∃ before policy_version after,
    policy_version_list = before ++ policy_version :: after
    ∧ (∀ earlier, earlier ∈ before →
         IsDefaultVersion earlier ≠ Some (VBool true))
    ∧ IsDefaultVersion policy_version = Some (VBool true)
    ∧ new_PolicyDocument (get (Document policy_version)) exclusions
        flag_resource_arn_statements flag_conditional_statements = Ok document.
Proof.
  intros Hdocument.
  destruct (first_default_version_or_none policy_version_list)
    as [(before & policy_version & after & -> & Hbefore & Hflag)|Hnone].
  - rewrite (_policy_document_first _ _ _ _ _ _ _ _ Hbefore Hflag) in Hdocument.
    by exists before, policy_version, after.
  - by rewrite (_policy_document_raise _ _ _ _ _ _ Hnone) in Hdocument.
Qed.

(** With its four identity keys read, the constructor returns or raises
    as [_policy_document] does, and stores the document it returns. *)
Lemma __init___document new_PolicyDocument policy_detail exclusions
    flag_conditional_statements flag_resource_arn_statements severity
    policy_name policy_id arn path :
  PolicyName policy_detail = Some policy_name →
  PolicyId policy_detail = Some policy_id →
  Arn policy_detail = Some arn →
  Path policy_detail = Some path →
  match ManagedPolicy._policy_document new_PolicyDocument
          (default [] (PolicyVersionList policy_detail)) exclusions
          flag_resource_arn_statements flag_conditional_statements arn with
  | Ok document =>
      ∃ self,
        ManagedPolicy.__init__ new_PolicyDocument policy_detail exclusions
          flag_conditional_statements flag_resource_arn_statements severity
        = Ok self
        ∧ ManagedPolicy.policy_document self = document
  | Raise e =>
      ManagedPolicy.__init__ new_PolicyDocument policy_detail exclusions
        flag_conditional_statements flag_resource_arn_statements severity
      = Raise e
  end.
Proof.
  intros Hname Hid Harn Hpath. unfold ManagedPolicy.__init__.
  rewrite Hname, Hid, Harn, Hpath. cbn [getitem mbind result_bind].
  destruct (ManagedPolicy._policy_document _ _ _ _ _ _) as [document|e];
    cbn [mbind result_bind]; [|done].
  by eexists.
Qed.

(** C4: the document of a constructed policy is what the classifier
    returns for the [Document] of the first version of the record's
    version list whose [IsDefaultVersion] is [True]. A record with its
    four identity keys and such a version is constructed, with that
    document, whenever the classifier returns one, and raises what the
    classifier raises otherwise. When no version of the record is flagged
    default the constructor raises, with the no-default-version exception
    once the four identity keys are read. *)
Theorem default_version_document
    (new_PolicyDocument : value → Exclusions → bool → bool → result PolicyDocument)
    (policy_detail : PolicyDetail) (exclusions : Exclusions)
    (flag_conditional_statements flag_resource_arn_statements : bool)
    (severity : option (list string)) :
  (∀ self,
     ManagedPolicy.__init__ new_PolicyDocument policy_detail exclusions
       flag_conditional_statements flag_resource_arn_statements severity = Ok self →
     ∃ before policy_version after,
       default [] (PolicyVersionList policy_detail)
         = before ++ policy_version :: after
       ∧ (∀ earlier, earlier ∈ before →
            IsDefaultVersion earlier ≠ Some (VBool true))
       ∧ IsDefaultVersion policy_version = Some (VBool true)
       ∧ new_PolicyDocument (get (Document policy_version)) exclusions
           flag_resource_arn_statements flag_conditional_statements
         = Ok (ManagedPolicy.policy_document self))
  ∧ (∀ before policy_version after,
       is_Some (PolicyName policy_detail) →
       is_Some (PolicyId policy_detail) →
       is_Some (Arn policy_detail) →
       is_Some (Path policy_detail) →
       default [] (PolicyVersionList policy_detail)
         = before ++ policy_version :: after →
       (∀ earlier, earlier ∈ before →
          IsDefaultVersion earlier ≠ Some (VBool true)) →
       IsDefaultVersion policy_version = Some (VBool true) →
       (∀ document,
          new_PolicyDocument (get (Document policy_version)) exclusions
            flag_resource_arn_statements flag_conditional_statements
          = Ok document →
          ∃ self,
            ManagedPolicy.__init__ new_PolicyDocument policy_detail exclusions
              flag_conditional_statements flag_resource_arn_statements severity
            = Ok self
            ∧ ManagedPolicy.policy_document self = document)
       ∧ (∀ e,
            new_PolicyDocument (get (Document policy_version)) exclusions
              flag_resource_arn_statements flag_conditional_statements
            = Raise e →
            ManagedPolicy.__init__ new_PolicyDocument policy_detail exclusions
              flag_conditional_statements flag_resource_arn_statements severity
            = Raise e))
  ∧ ((∀ policy_version,
        policy_version ∈ default [] (PolicyVersionList policy_detail) →
        IsDefaultVersion policy_version ≠ Some (VBool true)) →
     is_ok (ManagedPolicy.__init__ new_PolicyDocument policy_detail exclusions
              flag_conditional_statements flag_resource_arn_statements severity)
     = false
     ∧ (∀ policy_name policy_id arn path,
          PolicyName policy_detail = Some policy_name →
          PolicyId policy_detail = Some policy_id →
          Arn policy_detail = Some arn →
          Path policy_detail = Some path →
          ManagedPolicy.__init__ new_PolicyDocument policy_detail exclusions
            flag_conditional_statements flag_resource_arn_statements severity
          = Raise (no_default_version arn))).
Proof.
  split_and!.
  - unfold ManagedPolicy.__init__. intros self Hinit.
    read_identity_keys policy_detail. simpl in Hinit.
    destruct (ManagedPolicy._policy_document _ _ _ _ _ _) as [document|]
      eqn:Hdocument; [|done].
    apply _policy_document_ok in Hdocument
      as (before & policy_version & after & Hsplit & Hbefore & Hflag & Hclassified).
    simpl in Hinit. injection Hinit as <-. simpl. eauto 10.
  - intros before policy_version after [policy_name Hname] [policy_id Hid]
      [arn Harn] [path Hpath] Hsplit Hbefore Hflag.
    pose proof (__init___document new_PolicyDocument policy_detail exclusions
                  flag_conditional_statements flag_resource_arn_statements
                  severity _ _ _ _ Hname Hid Harn Hpath) as Hinit.
    rewrite Hsplit, (_policy_document_first _ _ _ _ _ _ _ _ Hbefore Hflag) in Hinit.
    split.
    + intros document Hclassified. by rewrite Hclassified in Hinit.
    + intros e Hclassified. by rewrite Hclassified in Hinit.
  - intros Hnone. unfold ManagedPolicy.__init__.
    destruct (PolicyName policy_detail) as [policy_name|],
      (PolicyId policy_detail) as [policy_id|],
      (Arn policy_detail) as [arn|],
      (Path policy_detail) as [path|]; simpl;
      try (split; [done | intros; discriminate]).
    rewrite (_policy_document_raise _ _ _ _ _ _ Hnone). simpl.
    split; [done|]. by intros ???? _ _ [= <-] _.
Qed.

Lemma default_version_document_witness :
  (∃ self,
     ManagedPolicy.__init__ sample_PolicyDocument sample_aws_record
       empty_exclusions false false None = Ok self
     ∧ ManagedPolicy.policy_document self
       = sample_document (VList [VStr "s3:GetObject"; VStr "ec2:RunInstances"]))
  ∧ is_ok (ManagedPolicy.__init__ sample_PolicyDocument sample_no_default_record
             empty_exclusions false false None) = false
  ∧ ManagedPolicy.__init__ sample_PolicyDocument sample_no_default_record
      empty_exclusions false false None
    = Raise (no_default_version "arn:aws:iam::123456789012:policy/draft").
Proof.
  split.
  - destruct (default_version_document sample_PolicyDocument sample_aws_record
                empty_exclusions false false None) as (_ & Hbuilt & _).
    destruct (Hbuilt [sample_version ["s3:PutObject"] false]
                (sample_version ["s3:GetObject"; "ec2:RunInstances"] true) [])
      as [Hreturns _].
    + by exists "ReadOnlyAccess".
    + by eexists.
    + by eexists.
    + by eexists.
    + reflexivity.
    + intros earlier Hin. apply list_elem_of_singleton in Hin as ->. discriminate.
    + reflexivity.
    + apply Hreturns. reflexivity.
  - destruct (default_version_document sample_PolicyDocument
                sample_no_default_record empty_exclusions false false None)
      as (_ & _ & Hraise).
    destruct Hraise as [Hfails Hexception].
    + intros policy_version Hin. simpl in Hin.
      apply list_elem_of_singleton in Hin as ->. discriminate.
    + split; [exact Hfails|].
      by apply (Hexception "draft" "ANPADRAFT" _ "/").
Defined.

(** The constructor returns whenever the four identity keys are present
    and the classifier returns for the document of the first version
    flagged default. *)
Lemma __init___returns new_PolicyDocument policy_detail exclusions
    flag_conditional_statements flag_resource_arn_statements severity
    before policy_version after :
  is_Some (PolicyName policy_detail) →
  is_Some (PolicyId policy_detail) →
  is_Some (Arn policy_detail) →
  is_Some (Path policy_detail) →
  default [] (PolicyVersionList policy_detail)
    = before ++ policy_version :: after →
  (∀ earlier, earlier ∈ before →
     IsDefaultVersion earlier ≠ Some (VBool true)) →
  IsDefaultVersion policy_version = Some (VBool true) →
  is_ok (new_PolicyDocument (get (Document policy_version)) exclusions
           flag_resource_arn_statements flag_conditional_statements) = true →
  is_ok (ManagedPolicy.__init__ new_PolicyDocument policy_detail exclusions
           flag_conditional_statements flag_resource_arn_statements severity)
  = true.
Proof.
  intros [policy_name Hname] [policy_id Hid] [arn Harn] [path Hpath]
    Hsplit Hbefore Hflag Hclassified.
  pose proof (__init___document new_PolicyDocument policy_detail exclusions
                flag_conditional_statements flag_resource_arn_statements
                severity _ _ _ _ Hname Hid Harn Hpath) as Hinit.
  rewrite Hsplit, (_policy_document_first _ _ _ _ _ _ _ _ Hbefore Hflag) in Hinit.
  destruct (new_PolicyDocument _ _ _ _) as [document|]; [|done].
  by destruct Hinit as (self & -> & _).
Qed.

(** The optional attributes of a constructed policy are the [get] of
    their keys. *)
Lemma optional_attribute_constructed new_PolicyDocument policy_detail exclusions
    flag_conditional_statements flag_resource_arn_statements severity self key :
  ManagedPolicy.__init__ new_PolicyDocument policy_detail exclusions
    flag_conditional_statements flag_resource_arn_statements severity = Ok self →
  optional_attribute key self = get (optional_slot key policy_detail).
Proof.
  unfold ManagedPolicy.__init__. intros Hinit.
  read_identity_keys policy_detail.
  simpl in Hinit.
  destruct (ManagedPolicy._policy_document _ _ _ _ _ _) as [document|]; [|done].
  simpl in Hinit. injection Hinit as <-. by destruct key.
Qed.

(** Whether the constructor returns, and what it raises, does not depend
    on the optional keys. *)
Lemma __init___without_keys new_PolicyDocument missing policy_detail exclusions
    flag_conditional_statements flag_resource_arn_statements severity :
  is_ok (ManagedPolicy.__init__ new_PolicyDocument
           (without_keys missing policy_detail) exclusions
           flag_conditional_statements flag_resource_arn_statements severity)
  = is_ok (ManagedPolicy.__init__ new_PolicyDocument policy_detail exclusions
             flag_conditional_statements flag_resource_arn_statements severity)
  ∧ ∀ e,
      ManagedPolicy.__init__ new_PolicyDocument
        (without_keys missing policy_detail) exclusions
        flag_conditional_statements flag_resource_arn_statements severity
      = Raise e
      ↔ ManagedPolicy.__init__ new_PolicyDocument policy_detail exclusions
          flag_conditional_statements flag_resource_arn_statements severity
        = Raise e.
Proof.
  unfold ManagedPolicy.__init__. simpl.
  destruct (PolicyName policy_detail) as [policy_name|]; [|done].
  destruct (PolicyId policy_detail) as [policy_id|]; [|done].
  destruct (Arn policy_detail) as [arn|]; [|done].
  destruct (Path policy_detail) as [path|]; [|done].
  simpl.
  destruct (ManagedPolicy._policy_document _ _ _ _ _ _); simpl; [|done].
  split; [done|]. intros e. split; intros [=].
Qed.

(** C9: whichever optional metadata keys a record lacks, the constructor
    returns exactly when it returns with them and raises exactly what it
    raises with them: removing any set of optional keys never makes it
    raise. It returns for a record with the four identity keys whose
    first version flagged default has a document the classifier accepts.
    On the constructed object each optional attribute is the value of its
    key, and [None] for a key that is missing. *)
Theorem optional_metadata_never_raises
    (new_PolicyDocument : value → Exclusions → bool → bool → result PolicyDocument)
    (missing : list optional_key)
    (policy_detail : PolicyDetail) (exclusions : Exclusions)
    (flag_conditional_statements flag_resource_arn_statements : bool)
    (severity : option (list string)) :
  is_ok (ManagedPolicy.__init__ new_PolicyDocument
           (without_keys missing policy_detail) exclusions
           flag_conditional_statements flag_resource_arn_statements severity)
  = is_ok (ManagedPolicy.__init__ new_PolicyDocument policy_detail exclusions
             flag_conditional_statements flag_resource_arn_statements severity)
  ∧ (∀ e,
       ManagedPolicy.__init__ new_PolicyDocument
         (without_keys missing policy_detail) exclusions
         flag_conditional_statements flag_resource_arn_statements severity
       = Raise e
       ↔ ManagedPolicy.__init__ new_PolicyDocument policy_detail exclusions
           flag_conditional_statements flag_resource_arn_statements severity
         = Raise e)
  ∧ (∀ before policy_version after,
       is_Some (PolicyName policy_detail) →
       is_Some (PolicyId policy_detail) →
       is_Some (Arn policy_detail) →
       is_Some (Path policy_detail) →
       default [] (PolicyVersionList policy_detail)
         = before ++ policy_version :: after →
       (∀ earlier, earlier ∈ before →
          IsDefaultVersion earlier ≠ Some (VBool true)) →
       IsDefaultVersion policy_version = Some (VBool true) →
       is_ok (new_PolicyDocument (get (Document policy_version)) exclusions
                flag_resource_arn_statements flag_conditional_statements)
       = true →
       ∃ self,
         ManagedPolicy.__init__ new_PolicyDocument
           (without_keys missing policy_detail) exclusions
           flag_conditional_statements flag_resource_arn_statements severity
         = Ok self)
  ∧ (∀ self key,
       ManagedPolicy.__init__ new_PolicyDocument
         (without_keys missing policy_detail) exclusions
         flag_conditional_statements flag_resource_arn_statements severity
       = Ok self →
       optional_attribute key self
       = if decide (key ∈ missing) then VNone
         else default VNone (optional_slot key policy_detail)).
Proof.
  split_and!.
  - apply __init___without_keys.
  - apply __init___without_keys.
  - intros before policy_version after Hname Hid Harn Hpath Hsplit Hbefore Hflag
      Hclassified.
    pose proof (__init___returns new_PolicyDocument
                  (without_keys missing policy_detail) exclusions
                  flag_conditional_statements flag_resource_arn_statements
                  severity before policy_version after
                  Hname Hid Harn Hpath Hsplit Hbefore Hflag Hclassified)
      as Hreturns.
    destruct (ManagedPolicy.__init__ _ _ _ _ _ _) as [self|]; [eauto | done].
  - intros self key Hinit.
    rewrite (optional_attribute_constructed _ _ _ _ _ _ _ key Hinit).
    destruct key; simpl; by destruct (decide _).
Qed.

Lemma optional_metadata_never_raises_witness :
  (∃ self,
     ManagedPolicy.__init__ sample_PolicyDocument
       (without_keys [KAttachmentCount; KCreateDate] sample_full_record)
       empty_exclusions false false None = Ok self)
  ∧ (∀ self,
       ManagedPolicy.__init__ sample_PolicyDocument
         (without_keys [KAttachmentCount; KCreateDate] sample_full_record)
         empty_exclusions false false None = Ok self →
       optional_attribute KAttachmentCount self = VNone
       ∧ optional_attribute KUpdateDate self = VStr "2020-02-01T00:00:00Z").
Proof.
  destruct (optional_metadata_never_raises sample_PolicyDocument
              [KAttachmentCount; KCreateDate] sample_full_record
              empty_exclusions false false None)
    as (_ & _ & Hreturns & Hattributes).
  split.
  - apply (Hreturns [] (sample_version ["iam:PassRole"; "ec2:RunInstances"] true)
             []);
      try (by eexists); try reflexivity.
    by intros earlier ?%elem_of_nil.
  - intros self Hinit. split.
    + by rewrite (Hattributes self KAttachmentCount Hinit).
    + by rewrite (Hattributes self KUpdateDate Hinit).
Defined.

(** ** Aggregates of the collection *)

(** The set accumulated by the loop of
    [all_infrastructure_modification_actions]. *)
Lemma infrastructure_union_elem (policies : list ManagedPolicy.t)
    (start : gset string) (action : string) :
  action ∈ foldl
             (λ (result : gset string) policy,
                result ∪ list_to_set
                  (infrastructure_modification (ManagedPolicy.policy_document policy)))
             start policies
  ↔ action ∈ start
    ∨ ∃ policy, policy ∈ policies
        ∧ action ∈ infrastructure_modification (ManagedPolicy.policy_document policy).
Proof.
  revert start. induction policies as [|policy policies IH]; intros start; simpl.
  - split; [by left|]. intros [?|(policy & []%elem_of_nil & _)]. done.
  - rewrite IH, elem_of_union, elem_of_list_to_set. split.
    + intros [[?|?]|(later & ? & ?)]; [by left| |].
      * right. exists policy. split; [apply list_elem_of_here | done].
      * right. exists later. split; [by apply list_elem_of_further | done].
    + intros [?|(found & [->|?]%elem_of_cons & ?)]; [by left; left|by left; right|].
      right. by exists found.
Qed.

(** C6: [all_infrastructure_modification_actions] is in ascending
    lexicographic order without duplicates, and holds exactly the
    infrastructure modification actions of the documents of the retained
    policies; it is the only such list. *)
Theorem all_infrastructure_modification_actions_sorted_union
    (self : ManagedPolicyDetails.t) :
  StronglySorted String.le
    (ManagedPolicyDetails.all_infrastructure_modification_actions self)
  ∧ NoDup (ManagedPolicyDetails.all_infrastructure_modification_actions self)
  ∧ (∀ action,
       action ∈ ManagedPolicyDetails.all_infrastructure_modification_actions self
       ↔ ∃ policy,
           policy ∈ ManagedPolicyDetails.policy_details self
           ∧ action ∈ infrastructure_modification
                        (ManagedPolicy.policy_document policy))
  ∧ (∀ actions : list string,
       StronglySorted String.le actions →
       NoDup actions →
       (∀ action,
          action ∈ actions
          ↔ ∃ policy,
              policy ∈ ManagedPolicyDetails.policy_details self
              ∧ action ∈ infrastructure_modification
                           (ManagedPolicy.policy_document policy)) →
       actions = ManagedPolicyDetails.all_infrastructure_modification_actions self).
Proof.
  unfold ManagedPolicyDetails.all_infrastructure_modification_actions.
  set (result := foldl _ ∅ (ManagedPolicyDetails.policy_details self)).
  assert (StronglySorted String.le (merge_sort String.le (elements result)))
    as Hsorted by apply (StronglySorted_merge_sort _).
  assert (NoDup (merge_sort String.le (elements result))) as Hnodup.
  { rewrite merge_sort_Permutation. apply NoDup_elements. }
  assert (∀ action,
            action ∈ merge_sort String.le (elements result)
            ↔ ∃ policy,
                policy ∈ ManagedPolicyDetails.policy_details self
                ∧ action ∈ infrastructure_modification
                             (ManagedPolicy.policy_document policy)) as Helem.
  { intros action. rewrite merge_sort_Permutation, elem_of_elements.
    subst result. rewrite infrastructure_union_elem.
    split; [intros [[]%elem_of_empty|?]; done | by right]. }
  split_and!; try done.
  intros actions Hsorted' Hnodup' Helem'.
  apply (StronglySorted_unique String.le); try done.
  apply NoDup_Permutation; try done.
  intros action. by rewrite Helem, Helem'.
Qed.

Lemma all_infrastructure_modification_actions_sorted_union_witness :
  ["ec2:RunInstances"; "iam:PassRole"]
  = ManagedPolicyDetails.all_infrastructure_modification_actions
      {| ManagedPolicyDetails.policy_details :=
           [sample_policy empty_exclusions []; sample_policy empty_exclusions []];
         ManagedPolicyDetails.exclusions := empty_exclusions;
         ManagedPolicyDetails.flag_conditional_statements := false;
         ManagedPolicyDetails.flag_resource_arn_statements := false;
         ManagedPolicyDetails.iam_data := empty_iam_data |}.
Proof.
  apply all_infrastructure_modification_actions_sorted_union.
  - repeat constructor.
  - apply NoDup_cons. split; [|apply NoDup_singleton].
    rewrite list_elem_of_singleton. discriminate.
  - intros action. split.
    + intros Hin. exists (sample_policy empty_exclusions []).
      split; [apply list_elem_of_here|]. simpl.
      rewrite !elem_of_cons in Hin. rewrite !elem_of_cons. tauto.
    + intros (policy & Hpolicy & Hin). simpl in Hpolicy.
      rewrite !elem_of_cons, elem_of_nil in Hpolicy.
      destruct Hpolicy as [->|[->|[]]]; simpl in Hin;
        rewrite !elem_of_cons in Hin; rewrite !elem_of_cons; tauto.
Defined.

(** ** Reports by origin *)

Lemma managed_by_AWS self :
  ManagedPolicy.managed_by self = "AWS" ↔
  is_aws_managed (ManagedPolicy.arn self) = true.
Proof.
  unfold ManagedPolicy.managed_by.
  by destruct (is_aws_managed (ManagedPolicy.arn self)).
Qed.

Lemma managed_by_Customer self :
  ManagedPolicy.managed_by self = "Customer" ↔
  is_aws_managed (ManagedPolicy.arn self) = false.
Proof.
  unfold ManagedPolicy.managed_by.
  by destruct (is_aws_managed (ManagedPolicy.arn self)).
Qed.

(** A dict comprehension keeps, under each key, the value of the last
    item that carries the key. *)
Lemma comprehension_lookup {A V} (key : A → string) (value_of : A → V)
    (items : list A) (start : gmap string V) (k : string) :
  foldl (λ result item, <[key item := value_of item]> result) start items !! k
  = match last (filter (λ item, key item = k) items) with
    | Some item => Some (value_of item)
    | None => start !! k
    end.
Proof.
  induction items as [|item items IH] using rev_ind.
  - done.
  - rewrite foldl_app, filter_app. cbn [foldl].
    destruct (decide (key item = k)) as [Hkey|Hkey].
    + rewrite (filter_singleton_True _ item []) by done.
      by rewrite last_snoc, Hkey, lookup_insert_eq.
    + rewrite (filter_singleton_False _ item []) by done.
      by rewrite app_nil_r, lookup_insert_ne.
Qed.

(** Distinct slots of a list with pairwise distinct keys hold distinct
    keys. *)
Lemma NoDup_fmap_elem_inj {A B} (f : A → B) (l : list A) (x y : A) :
  NoDup (f <$> l) → x ∈ l → y ∈ l → f x = f y → x = y.
Proof.
  induction l as [|z l IH]; intros Hnodup Hx Hy Heq.
  - by apply elem_of_nil in Hx.
  - rewrite fmap_cons in Hnodup. apply NoDup_cons in Hnodup as [Hz Hnodup].
    apply elem_of_cons in Hx as [->|Hx], Hy as [->|Hy]; [done| | |by apply IH].
    + destruct Hz. rewrite Heq. by apply list_elem_of_fmap_2.
    + destruct Hz. rewrite <- Heq. by apply list_elem_of_fmap_2.
Qed.

Lemma json_large_aws_managed_lookup ISSUE_SEVERITY RISK_DEFINITION self policy_id :
  ManagedPolicyDetails.json_large_aws_managed ISSUE_SEVERITY RISK_DEFINITION self
    !! policy_id
  = ManagedPolicy.json_large ISSUE_SEVERITY RISK_DEFINITION
      <$> last (retained_with_id true policy_id self).
Proof.
  unfold ManagedPolicyDetails.json_large_aws_managed, retained_with_id.
  rewrite comprehension_lookup, lookup_empty.
  rewrite (list_filter_iff
             (λ policy, ManagedPolicy.managed_by policy = "AWS")
             (λ policy, is_aws_managed (ManagedPolicy.arn policy) = true))
    by (intros policy; apply managed_by_AWS).
  by destruct (last _).
Qed.

Lemma json_large_customer_managed_lookup ISSUE_SEVERITY RISK_DEFINITION self
    policy_id :
  ManagedPolicyDetails.json_large_customer_managed ISSUE_SEVERITY RISK_DEFINITION
    self !! policy_id
  = ManagedPolicy.json_large ISSUE_SEVERITY RISK_DEFINITION
      <$> last (retained_with_id false policy_id self).
Proof.
  unfold ManagedPolicyDetails.json_large_customer_managed, retained_with_id.
  rewrite comprehension_lookup, lookup_empty.
  rewrite (list_filter_iff
             (λ policy, ManagedPolicy.managed_by policy = "Customer")
             (λ policy, is_aws_managed (ManagedPolicy.arn policy) = false))
    by (intros policy; apply managed_by_Customer).
  by destruct (last _).
Qed.

(** With pairwise distinct policy ids, the last retained policy of an
    origin under an id is the only one. *)
Lemma last_retained_with_id aws_managed policy_id self policy :
  NoDup (ManagedPolicy.policy_id <$> ManagedPolicyDetails.policy_details self) →
  last (retained_with_id aws_managed policy_id self) = Some policy ↔
  policy ∈ ManagedPolicyDetails.policy_details self
  ∧ is_aws_managed (ManagedPolicy.arn policy) = aws_managed
  ∧ ManagedPolicy.policy_id policy = policy_id.
Proof.
  intros Hnodup. unfold retained_with_id. split.
  - intros Hlast%last_Some_elem_of.
    apply list_elem_of_filter in Hlast as [Hid Hlast].
    by apply list_elem_of_filter in Hlast as [Horigin Hlast].
  - intros (Hin & Horigin & Hid).
    assert (policy ∈ filter (λ policy, ManagedPolicy.policy_id policy = policy_id)
              (filter (λ policy,
                         is_aws_managed (ManagedPolicy.arn policy) = aws_managed)
                 (ManagedPolicyDetails.policy_details self))) as Hfound.
    { apply list_elem_of_filter. split; [done|]. by apply list_elem_of_filter. }
    destruct (last _) as [other|] eqn:Hlast.
    + f_equal. apply last_Some_elem_of in Hlast.
      apply list_elem_of_filter in Hlast as [Hid' Hlast].
      apply list_elem_of_filter in Hlast as [_ Hlast].
      apply (NoDup_fmap_elem_inj ManagedPolicy.policy_id
               (ManagedPolicyDetails.policy_details self)); congruence.
    + apply last_None in Hlast. rewrite Hlast in Hfound.
      by apply elem_of_nil in Hfound.
Qed.

(** C7, as stated, fails when two retained policies of one origin carry
    the same policy id: the report of the earlier one is under no key of
    the result. *)
Lemma reports_by_origin_counterexample :
  ManagedPolicyDetails.__init__ sample_PolicyDocument
    [sample_aws_record; sample_clash_record] empty_exclusions false false None
  = Ok (sample_collection [sample_aws_record; sample_clash_record])
  ∧ sample_aws_policy
    ∈ ManagedPolicyDetails.policy_details
        (sample_collection [sample_aws_record; sample_clash_record])
  ∧ String.prefix "arn:aws:iam::aws:policy/" (ManagedPolicy.arn sample_aws_policy)
    = true
  ∧ ∀ policy_id,
      ManagedPolicyDetails.json_large_aws_managed sample_ISSUE_SEVERITY
        sample_RISK_DEFINITION
        (sample_collection [sample_aws_record; sample_clash_record]) !! policy_id
      ≠ Some (ManagedPolicy.json_large sample_ISSUE_SEVERITY sample_RISK_DEFINITION
                sample_aws_policy).
Proof.
  split_and!; [reflexivity | apply list_elem_of_here | reflexivity |].
  intros policy_id. rewrite json_large_aws_managed_lookup.
  unfold retained_with_id.
  set (clash := default sample_aws_policy
                  (ManagedPolicyDetails.policy_details
                     (sample_collection [sample_aws_record; sample_clash_record])
                   !! 1)).
  assert (filter (λ policy, is_aws_managed (ManagedPolicy.arn policy) = true)
            (ManagedPolicyDetails.policy_details
               (sample_collection [sample_aws_record; sample_clash_record]))
          = [sample_aws_policy; clash]) as -> by reflexivity.
  destruct (decide ("ANPAREADONLY" = policy_id)) as [<-|Hne].
  - intros Hsame. apply (f_equal (fmap Report.PolicyName)) in Hsame.
    discriminate Hsame.
  - rewrite !filter_cons_False, filter_nil; [done | |];
      intros Hid; apply Hne; rewrite <- Hid; reflexivity.
Qed.

(** C7, amended: the reports with origin AWS map each policy id to the
    report of the last retained policy with that id whose arn has the
    AWS-managed shape, and the reports with origin Customer do so for the
    remaining retained policies. When the retained policies have pairwise
    distinct ids, the reports of an origin are exactly the reports of the
    retained policies of that origin, each under its policy id. *)
Theorem reports_by_origin
    (ISSUE_SEVERITY RISK_DEFINITION : RiskCategory → string)
    (self : ManagedPolicyDetails.t) :
  (∀ policy_id,
     ManagedPolicyDetails.json_large_aws_managed ISSUE_SEVERITY RISK_DEFINITION self
       !! policy_id
     = ManagedPolicy.json_large ISSUE_SEVERITY RISK_DEFINITION
         <$> last (retained_with_id true policy_id self))
  ∧ (∀ policy_id,
       ManagedPolicyDetails.json_large_customer_managed ISSUE_SEVERITY
         RISK_DEFINITION self !! policy_id
       = ManagedPolicy.json_large ISSUE_SEVERITY RISK_DEFINITION
           <$> last (retained_with_id false policy_id self))
  ∧ (NoDup (ManagedPolicy.policy_id <$> ManagedPolicyDetails.policy_details self) →
     ∀ policy_id report,
       (ManagedPolicyDetails.json_large_aws_managed ISSUE_SEVERITY RISK_DEFINITION
          self !! policy_id = Some report
        ↔ ∃ policy,
            policy ∈ ManagedPolicyDetails.policy_details self
            ∧ String.prefix "arn:aws:iam::aws:policy/" (ManagedPolicy.arn policy)
              = true
            ∧ ManagedPolicy.policy_id policy = policy_id
            ∧ report = ManagedPolicy.json_large ISSUE_SEVERITY RISK_DEFINITION policy)
       ∧ (ManagedPolicyDetails.json_large_customer_managed ISSUE_SEVERITY
            RISK_DEFINITION self !! policy_id = Some report
          ↔ ∃ policy,
              policy ∈ ManagedPolicyDetails.policy_details self
              ∧ String.prefix "arn:aws:iam::aws:policy/" (ManagedPolicy.arn policy)
                = false
              ∧ ManagedPolicy.policy_id policy = policy_id
              ∧ report
                = ManagedPolicy.json_large ISSUE_SEVERITY RISK_DEFINITION policy)).
Proof.
  split_and!.
  - apply json_large_aws_managed_lookup.
  - apply json_large_customer_managed_lookup.
  - intros Hnodup policy_id report.
    rewrite json_large_aws_managed_lookup, json_large_customer_managed_lookup.
    rewrite !fmap_Some.
    split; (split;
      [ intros (policy & Hlast & ->);
        apply (last_retained_with_id _ _ _ _ Hnodup) in Hlast
          as (Hin & Horigin & Hid); by exists policy
      | intros (policy & Hin & Horigin & Hid & ->); exists policy;
        split; [|done]; by apply (last_retained_with_id _ _ _ _ Hnodup) ]).
Qed.

Lemma reports_by_origin_witness :
  NoDup (ManagedPolicy.policy_id <$>
           ManagedPolicyDetails.policy_details
             (sample_collection [sample_aws_record; sample_customer_record]))
  ∧ ManagedPolicyDetails.json_large_aws_managed sample_ISSUE_SEVERITY
      sample_RISK_DEFINITION
      (sample_collection [sample_aws_record; sample_customer_record])
      !! "ANPAREADONLY"
    = Some (ManagedPolicy.json_large sample_ISSUE_SEVERITY sample_RISK_DEFINITION
              sample_aws_policy).
Proof.
  assert (NoDup (ManagedPolicy.policy_id <$>
                   ManagedPolicyDetails.policy_details
                     (sample_collection [sample_aws_record; sample_customer_record])))
    as Hnodup.
  { apply NoDup_cons. split; [|apply NoDup_singleton].
    rewrite list_elem_of_singleton. discriminate. }
  split; [exact Hnodup|].
  destruct (reports_by_origin sample_ISSUE_SEVERITY sample_RISK_DEFINITION
              (sample_collection [sample_aws_record; sample_customer_record]))
    as (_ & _ & Hexact).
  apply (Hexact Hnodup). exists sample_aws_policy.
  split_and!; [apply list_elem_of_here | reflexivity..].
Defined.

(** ** Lookup by arn *)

(** The loop of [get_policy_detail] finds the first slot whose object
    has the arn. *)
Lemma get_policy_detail_from_find i policy_details arn :
  ManagedPolicyDetails.get_policy_detail_from i policy_details arn
  = match list_find (λ policy, ManagedPolicy.arn policy = arn) policy_details with
    | Some (j, _) => Ok (i + j)
    | None => Raise (not_found arn)
    end.
Proof.
  revert i. induction policy_details as [|policy rest IH]; intros i; csimpl.
  - done.
  - destruct (String.eqb_spec (ManagedPolicy.arn policy) arn) as [Harn|Harn].
    + rewrite decide_True by done. simpl. f_equal. lia.
    + rewrite decide_False by done. rewrite IH.
      destruct (list_find _ rest) as [[j found]|]; simpl; [|done].
      f_equal. lia.
Qed.

(** Replacing the inventory does not move the loop of
    [get_policy_detail]. *)
Lemma get_policy_detail_from_set_iam_data inventory i policy_details arn :
  ManagedPolicyDetails.get_policy_detail_from i
    (ManagedPolicy.set_iam_data inventory <$> policy_details) arn
  = ManagedPolicyDetails.get_policy_detail_from i policy_details arn.
Proof.
  revert i. induction policy_details as [|policy rest IH]; intros i; csimpl.
  - done.
  - by rewrite IH.
Qed.

(** C8: [get_policy_detail] raises the not-found exception when no
    retained policy has the arn. When one has, it returns the reference
    to the first retained object with that arn; the call leaves the
    collection as it is, so every further call returns the same
    reference, also after the inventory is replaced, when the reference
    still points to that object with its new inventory. *)
Theorem get_policy_detail_first_match
    (self : ManagedPolicyDetails.t) (arn : string) :
  ((∀ policy, policy ∈ ManagedPolicyDetails.policy_details self →
      ManagedPolicy.arn policy ≠ arn) →
   ManagedPolicyDetails.get_policy_detail self arn
   = Raise (NotFoundException ("Managed Policy ARN " +:+ arn +:+ " not found.")))
  ∧ (∀ policy,
       policy ∈ ManagedPolicyDetails.policy_details self →
       ManagedPolicy.arn policy = arn →
       ∃ r found,
         ManagedPolicyDetails.get_policy_detail self arn = Ok r
         ∧ ManagedPolicyDetails.deref self r = Some found
         ∧ ManagedPolicy.arn found = arn
         ∧ (∀ earlier other,
              ManagedPolicyDetails.deref self earlier = Some other →
              earlier < r → ManagedPolicy.arn other ≠ arn)
         ∧ (∀ inventory,
              ManagedPolicyDetails.get_policy_detail
                (ManagedPolicyDetails.set_iam_data inventory self) arn = Ok r
              ∧ ManagedPolicyDetails.deref
                  (ManagedPolicyDetails.set_iam_data inventory self) r
                = Some (ManagedPolicy.set_iam_data inventory found))).
Proof.
  unfold ManagedPolicyDetails.get_policy_detail, ManagedPolicyDetails.deref.
  split.
  - intros Habsent. rewrite get_policy_detail_from_find.
    destruct (list_find _ _) as [[j found]|] eqn:Hfind; [|done].
    apply list_find_Some in Hfind as (Hlookup & Harn & _).
    destruct (Habsent found); [by eapply list_elem_of_lookup_2 | done].
  - intros policy Hin Harn.
    destruct (list_find_elem_of (λ policy, ManagedPolicy.arn policy = arn)
                _ policy Hin Harn) as [[r found] Hfind].
    exists r, found. rewrite get_policy_detail_from_find, Hfind.
    apply list_find_Some in Hfind as (Hlookup & Hfound & Hfirst).
    split_and!; try done.
    intros inventory. simpl.
    rewrite get_policy_detail_from_set_iam_data, get_policy_detail_from_find.
    rewrite (proj2 (list_find_Some _ _ r found)) by done.
    split; [done|]. by rewrite list_lookup_fmap, Hlookup.
Qed.

Lemma get_policy_detail_first_match_witness :
  ManagedPolicyDetails.get_policy_detail
    (sample_collection [sample_aws_record; sample_customer_record])
    "arn:aws:iam::aws:policy/Missing"
  = Raise (NotFoundException
             "Managed Policy ARN arn:aws:iam::aws:policy/Missing not found.")
  ∧ ∃ r found,
      ManagedPolicyDetails.get_policy_detail
        (sample_collection [sample_aws_record; sample_customer_record])
        "arn:aws:iam::aws:policy/ReadOnlyAccess" = Ok r
      ∧ ManagedPolicyDetails.deref
          (sample_collection [sample_aws_record; sample_customer_record]) r
        = Some found
      ∧ ManagedPolicy.arn found = "arn:aws:iam::aws:policy/ReadOnlyAccess".
Proof.
  split.
  - apply (get_policy_detail_first_match
             (sample_collection [sample_aws_record; sample_customer_record])
             "arn:aws:iam::aws:policy/Missing").
    intros policy Hin. simpl in Hin.
    rewrite !elem_of_cons, elem_of_nil in Hin.
    destruct Hin as [->|[->|[]]]; discriminate.
  - destruct (get_policy_detail_first_match
                (sample_collection [sample_aws_record; sample_customer_record])
                "arn:aws:iam::aws:policy/ReadOnlyAccess") as [_ Hfound].
    destruct (Hfound sample_aws_policy) as (r & found & Hcall & Hderef & Harn & _);
      [apply list_elem_of_here | reflexivity |].
    exists r, found. by split_and!.
Defined.

(** ** Replacing the inventory *)

Lemma set_iam_data_same_but_inventory inventory policy :
  same_but_inventory policy (ManagedPolicy.set_iam_data inventory policy).
Proof. by repeat split. Qed.

(** C10: [set_iam_data] on the collection stores the new inventory on
    the collection and on every retained object, and changes nothing
    else: the collection keeps its exclusions and flags and the same
    slots with the same objects, and each object keeps every attribute
    other than [iam_data]. *)
Theorem set_iam_data_frame (inventory : IamData) (self : ManagedPolicyDetails.t) :
  ManagedPolicyDetails.iam_data (ManagedPolicyDetails.set_iam_data inventory self)
  = inventory
  ∧ ManagedPolicyDetails.exclusions
      (ManagedPolicyDetails.set_iam_data inventory self)
    = ManagedPolicyDetails.exclusions self
  ∧ ManagedPolicyDetails.flag_conditional_statements
      (ManagedPolicyDetails.set_iam_data inventory self)
    = ManagedPolicyDetails.flag_conditional_statements self
  ∧ ManagedPolicyDetails.flag_resource_arn_statements
      (ManagedPolicyDetails.set_iam_data inventory self)
    = ManagedPolicyDetails.flag_resource_arn_statements self
  ∧ length (ManagedPolicyDetails.policy_details
              (ManagedPolicyDetails.set_iam_data inventory self))
    = length (ManagedPolicyDetails.policy_details self)
  ∧ (∀ r before,
       ManagedPolicyDetails.deref self r = Some before →
       ∃ after,
         ManagedPolicyDetails.deref
           (ManagedPolicyDetails.set_iam_data inventory self) r = Some after
         ∧ ManagedPolicy.iam_data after = inventory
         ∧ same_but_inventory before after).
Proof.
  unfold ManagedPolicyDetails.deref. simpl. split_and!; try done.
  - apply length_fmap.
  - intros r before Hbefore.
    exists (ManagedPolicy.set_iam_data inventory before).
    unfold ManagedPolicyDetails.ref in *.
    rewrite list_lookup_fmap, Hbefore.
    split_and!; [done..|]. apply set_iam_data_same_but_inventory.
Qed.

Lemma set_iam_data_frame_witness :
  ∃ after,
    ManagedPolicyDetails.deref
      (ManagedPolicyDetails.set_iam_data sample_inventory
         (sample_collection [sample_aws_record; sample_customer_record])) 0
    = Some after
    ∧ ManagedPolicy.iam_data after = sample_inventory
    ∧ same_but_inventory sample_aws_policy after.
Proof.
  destruct (set_iam_data_frame sample_inventory
              (sample_collection [sample_aws_record; sample_customer_record]))
    as (_ & _ & _ & _ & _ & Hobjects).
  apply (Hobjects 0 sample_aws_policy). reflexivity.
Defined.

(** ** The model on the samples *)

Example attached_role_of_customer_policy :
  ManagedPolicy.getAttached
    (ManagedPolicy.set_iam_data sample_inventory (sample_policy empty_exclusions []))
  !! "roles" = Some ["admin-role"].
Proof. reflexivity. Qed.

Example retained_without_service_roles :
  ManagedPolicy.policy_name <$>
    ManagedPolicyDetails.policy_details
      (sample_collection
         [sample_aws_record; sample_service_role_record; sample_customer_record])
  = ["ReadOnlyAccess"; "custom1"].
Proof. reflexivity. Qed.

Example collection_without_default_version :
  is_ok (ManagedPolicyDetails.__init__ sample_PolicyDocument
           [sample_aws_record; sample_no_default_record]
           empty_exclusions false false None) = false.
Proof. reflexivity. Qed.

Example union_of_sample_actions :
  ManagedPolicyDetails.all_infrastructure_modification_actions
    (sample_collection [sample_aws_record; sample_customer_record])
  = ["ec2:RunInstances"; "iam:PassRole"; "s3:GetObject"].
Proof. by vm_compute. Qed.

Example reports_of_sample_origins :
  dom (ManagedPolicyDetails.json_large_aws_managed sample_ISSUE_SEVERITY
         sample_RISK_DEFINITION
         (sample_collection [sample_aws_record; sample_customer_record]))
  = {[ "ANPAREADONLY" ]}
  ∧ dom (ManagedPolicyDetails.json_large_customer_managed sample_ISSUE_SEVERITY
           sample_RISK_DEFINITION
           (sample_collection [sample_aws_record; sample_customer_record]))
    = {[ "ANPACUSTOM1" ]}.
Proof. by vm_compute. Qed.

(** * Further properties *)

(** ** The constructor of the collection *)

(** The loop of the constructor, one record at a time. *)
Lemma __init___loop_cons new_PolicyDocument policy_detail rest exclusions
    flag_conditional_statements flag_resource_arn_statements severity retained :
  ManagedPolicyDetails.__init___loop new_PolicyDocument (policy_detail :: rest)
    exclusions flag_conditional_statements flag_resource_arn_statements severity
    retained
  = (kept ← record_step new_PolicyDocument exclusions flag_conditional_statements
              flag_resource_arn_statements severity policy_detail;
     ManagedPolicyDetails.__init___loop new_PolicyDocument rest exclusions
       flag_conditional_statements flag_resource_arn_statements severity
       (retained ++ option_list kept)).
Proof.
  cbn [ManagedPolicyDetails.__init___loop]. unfold record_step, record_kept.
  destruct (PolicyName policy_detail) as [this_policy_name|]; [|done].
  destruct (PolicyId policy_detail) as [this_policy_id|]; [|done].
  destruct (Path policy_detail) as [this_policy_path|]; [|done].
  cbn [getitem mbind result_bind].
  destruct (is_name_excluded this_policy_path "aws-service-role*"
            || is_name_excluded this_policy_path "/aws-service-role*").
  { cbn [negb andb mbind result_bind option_list]. by rewrite app_nil_r. }
  destruct (is_policy_excluded exclusions this_policy_name
            || is_policy_excluded exclusions this_policy_id
            || is_policy_excluded exclusions this_policy_path).
  { cbn [negb andb mbind result_bind option_list]. by rewrite app_nil_r. }
  cbn [negb andb].
  by destruct (ManagedPolicy.__init__ _ _ _ _ _ _).
Qed.

(** A pass that returns found the three keys; it returns a policy
    exactly for a record that is kept, the one [ManagedPolicy] builds. *)
Lemma record_step_ok new_PolicyDocument exclusions flag_conditional_statements
    flag_resource_arn_statements severity policy_detail kept :
  record_step new_PolicyDocument exclusions flag_conditional_statements
    flag_resource_arn_statements severity policy_detail = Ok kept →
  is_Some (PolicyName policy_detail)
  ∧ is_Some (PolicyId policy_detail)
  ∧ is_Some (Path policy_detail)
  ∧ match kept with
    | Some policy =>
        record_kept exclusions policy_detail = true
        ∧ ManagedPolicy.__init__ new_PolicyDocument policy_detail exclusions
            flag_conditional_statements flag_resource_arn_statements severity
          = Ok policy
    | None => record_kept exclusions policy_detail = false
    end.
Proof.
  unfold record_step.
  destruct (PolicyName policy_detail) as [this_policy_name|] eqn:Hname; [|done].
  destruct (PolicyId policy_detail) as [this_policy_id|] eqn:Hid; [|done].
  destruct (Path policy_detail) as [this_policy_path|] eqn:Hpath; [|done].
  cbn [getitem mbind result_bind].
  destruct (record_kept exclusions policy_detail).
  - destruct (ManagedPolicy.__init__ _ _ _ _ _ _) as [policy|]; [|done].
    intros [= <-]. by split_and!.
  - intros [= <-]. by split_and!.
Qed.

(** The loop returns the policies it started with, followed by the
    policies built from the records that are kept, in the order of the
    records. *)
Lemma __init___loop_ok new_PolicyDocument policy_details exclusions
    flag_conditional_statements flag_resource_arn_statements severity
    retained result :
  ManagedPolicyDetails.__init___loop new_PolicyDocument policy_details exclusions
    flag_conditional_statements flag_resource_arn_statements severity retained
  = Ok result →
  ∃ built,
    result = retained ++ built
    ∧ Forall2
        (λ policy_detail policy,
           ManagedPolicy.__init__ new_PolicyDocument policy_detail exclusions
             flag_conditional_statements flag_resource_arn_statements severity
           = Ok policy)
        (filter (λ policy_detail, record_kept exclusions policy_detail = true)
           policy_details)
        built.
Proof.
  revert retained.
  induction policy_details as [|policy_detail rest IH]; intros retained.
  - intros [= <-]. exists []. by rewrite app_nil_r.
  - rewrite __init___loop_cons.
    destruct (record_step _ _ _ _ _ _) as [kept|] eqn:Hstep; [|done].
    cbn [mbind result_bind]. intros (built & -> & Hbuilt)%IH.
    apply record_step_ok in Hstep as (_ & _ & _ & Hkept).
    destruct kept as [policy|]; cbn [option_list].
    + destruct Hkept as [Hkept Hpolicy]. exists (policy :: built).
      rewrite <- app_assoc. split; [done|].
      rewrite filter_cons_True by done. by constructor.
    + exists built. rewrite app_nil_r. split; [done|].
      rewrite filter_cons_False; [done|]. by rewrite Hkept.
Qed.

(** What the constructor of [ManagedPolicy] stores besides the optional
    metadata. *)
Lemma __init___attributes new_PolicyDocument policy_detail exclusions
    flag_conditional_statements flag_resource_arn_statements severity self :
  ManagedPolicy.__init__ new_PolicyDocument policy_detail exclusions
    flag_conditional_statements flag_resource_arn_statements severity = Ok self →
  PolicyName policy_detail = Some (ManagedPolicy.policy_name self)
  ∧ PolicyId policy_detail = Some (ManagedPolicy.policy_id self)
  ∧ Arn policy_detail = Some (ManagedPolicy.arn self)
  ∧ Path policy_detail = Some (ManagedPolicy.path self)
  ∧ ManagedPolicy.policy_detail self = policy_detail
  ∧ ManagedPolicy.exclusions self = exclusions
  ∧ ManagedPolicy.flag_conditional_statements self = flag_conditional_statements
  ∧ ManagedPolicy.flag_resource_arn_statements self = flag_resource_arn_statements
  ∧ ManagedPolicy.severity self = default [] severity
  ∧ ManagedPolicy.iam_data self = empty_iam_data
  ∧ ManagedPolicy.policy_version_list self
    = default [] (PolicyVersionList policy_detail)
  ∧ ManagedPolicy.is_excluded self
    = ManagedPolicy._is_excluded (ManagedPolicy.policy_name self)
        (ManagedPolicy.policy_id self) (ManagedPolicy.path self) exclusions.
Proof.
  unfold ManagedPolicy.__init__. intros Hinit.
  destruct (PolicyName policy_detail) as [policy_name|]; [|done].
  destruct (PolicyId policy_detail) as [policy_id|]; [|done].
  destruct (Arn policy_detail) as [arn|]; [|done].
  destruct (Path policy_detail) as [path|]; [|done].
  simpl in Hinit.
  destruct (ManagedPolicy._policy_document _ _ _ _ _ _) as [document|]; [|done].
  simpl in Hinit. injection Hinit as <-. by split_and!.
Qed.

(** A record that is kept yields a policy whose flag is not set. *)
Lemma record_kept_not_excluded new_PolicyDocument policy_detail exclusions
    flag_conditional_statements flag_resource_arn_statements severity self :
  record_kept exclusions policy_detail = true →
  ManagedPolicy.__init__ new_PolicyDocument policy_detail exclusions
    flag_conditional_statements flag_resource_arn_statements severity = Ok self →
  ManagedPolicy.is_excluded self = false.
Proof.
  intros Hkept Hinit.
  apply __init___attributes in Hinit
    as (Hname & Hid & _ & Hpath & _ & _ & _ & _ & _ & _ & _ & ->).
  unfold record_kept in Hkept. rewrite Hname, Hid, Hpath in Hkept.
  apply andb_true_iff in Hkept as [Hrole Hrules].
  apply negb_true_iff, orb_false_iff in Hrole as [_ Hrole].
  apply negb_true_iff in Hrules.
  unfold ManagedPolicy._is_excluded. by rewrite Hrules, Hrole.
Qed.

(** Whether the loop returns is decided record by record. *)
Lemma __init___loop_is_ok new_PolicyDocument policy_details exclusions
    flag_conditional_statements flag_resource_arn_statements severity retained :
  is_ok (ManagedPolicyDetails.__init___loop new_PolicyDocument policy_details
           exclusions flag_conditional_statements flag_resource_arn_statements
           severity retained) = true
  ↔ ∀ policy_detail, policy_detail ∈ policy_details →
      is_ok (record_step new_PolicyDocument exclusions flag_conditional_statements
               flag_resource_arn_statements severity policy_detail) = true.
Proof.
  revert retained.
  induction policy_details as [|policy_detail rest IH]; intros retained.
  - split; [by intros _ ? ?%elem_of_nil | done].
  - rewrite __init___loop_cons.
    destruct (record_step _ _ _ _ _ _) as [kept|] eqn:Hstep;
      cbn [mbind result_bind].
    + rewrite IH. split.
      * intros Hrest other [->|Hin]%elem_of_cons; [by rewrite Hstep | by apply Hrest].
      * intros Hall other Hin. apply Hall. by apply list_elem_of_further.
    + split; [done|]. intros Hall.
      specialize (Hall policy_detail (list_elem_of_here _ _)).
      by rewrite Hstep in Hall.
Qed.

(** The loop raises the exception of the first record whose pass
    raises. *)
Lemma __init___loop_raise new_PolicyDocument policy_details exclusions
    flag_conditional_statements flag_resource_arn_statements severity retained e :
  ManagedPolicyDetails.__init___loop new_PolicyDocument policy_details exclusions
    flag_conditional_statements flag_resource_arn_statements severity retained
  = Raise e
  ↔ ∃ before policy_detail after,
      policy_details = before ++ policy_detail :: after
      ∧ (∀ earlier, earlier ∈ before →
           is_ok (record_step new_PolicyDocument exclusions
                    flag_conditional_statements flag_resource_arn_statements
                    severity earlier) = true)
      ∧ record_step new_PolicyDocument exclusions flag_conditional_statements
          flag_resource_arn_statements severity policy_detail = Raise e.
Proof.
  revert retained.
  induction policy_details as [|first rest IH]; intros retained.
  - split; [done|]. intros (before & ? & ? & Hsplit & _).
    by destruct before.
  - rewrite __init___loop_cons.
    destruct (record_step _ _ _ _ _ first) as [kept|e'] eqn:Hstep;
      cbn [mbind result_bind].
    + rewrite IH. split.
      * intros (before & policy_detail & after & -> & Hbefore & Hraise).
        exists (first :: before), policy_detail, after. split_and!; [done| |done].
        intros earlier [->|Hin]%elem_of_cons; [by rewrite Hstep | by apply Hbefore].
      * intros (before & policy_detail & after & Hsplit & Hbefore & Hraise).
        destruct before as [|first' before]; injection Hsplit as <- ->.
        { congruence. }
        exists before, policy_detail, after. split_and!; [done| |done].
        intros earlier Hin. apply Hbefore. by apply list_elem_of_further.
    + split.
      * intros [= <-]. exists [], first, rest. split_and!; [done| |done].
        by intros ? ?%elem_of_nil.
      * intros (before & policy_detail & after & Hsplit & Hbefore & Hraise).
        destruct before as [|first' before]; injection Hsplit as <- ->.
        { congruence. }
        specialize (Hbefore first (list_elem_of_here _ _)).
        by rewrite Hstep in Hbefore.
Qed.

(** The pass over a record returns exactly when the record has its
    name, id and path and, if it is kept, [ManagedPolicy] can be built
    from it. *)
Lemma record_step_is_ok new_PolicyDocument exclusions flag_conditional_statements
    flag_resource_arn_statements severity policy_detail :
  is_ok (record_step new_PolicyDocument exclusions flag_conditional_statements
           flag_resource_arn_statements severity policy_detail) = true
  ↔ is_Some (PolicyName policy_detail)
    ∧ is_Some (PolicyId policy_detail)
    ∧ is_Some (Path policy_detail)
    ∧ (record_kept exclusions policy_detail = true →
       is_ok (ManagedPolicy.__init__ new_PolicyDocument policy_detail exclusions
                flag_conditional_statements flag_resource_arn_statements severity)
       = true).
Proof.
  unfold record_step.
  destruct (PolicyName policy_detail) as [this_policy_name|];
    [|split; [done | by intros ([] & _)]].
  destruct (PolicyId policy_detail) as [this_policy_id|];
    [|split; [done | by intros (_ & [] & _)]].
  destruct (Path policy_detail) as [this_policy_path|];
    [|split; [done | by intros (_ & _ & [] & _)]].
  cbn [getitem mbind result_bind].
  destruct (record_kept exclusions policy_detail).
  - destruct (ManagedPolicy.__init__ _ _ _ _ _ _) as [policy|]; simpl.
    + split; [|done]. intros _. by split_and!.
    + split; [done|]. intros (_ & _ & _ & Hbuilt). by apply Hbuilt.
  - split; [|done]. intros _. by split_and!.
Qed.

(** What a collection that is built retains. *)
Lemma __init___built
    (new_PolicyDocument : value → Exclusions → bool → bool → result PolicyDocument)
    (policy_details : list PolicyDetail) (exclusions : Exclusions)
    (flag_conditional_statements flag_resource_arn_statements : bool)
    (severity : option (list string)) (self : ManagedPolicyDetails.t) :
  ManagedPolicyDetails.__init__ new_PolicyDocument policy_details exclusions
    flag_conditional_statements flag_resource_arn_statements severity = Ok self →
  Forall2
    (λ policy_detail policy,
       ManagedPolicy.__init__ new_PolicyDocument policy_detail exclusions
         flag_conditional_statements flag_resource_arn_statements severity
       = Ok policy)
    (filter (λ policy_detail, record_kept exclusions policy_detail = true)
       policy_details)
    (ManagedPolicyDetails.policy_details self).
Proof.
  unfold ManagedPolicyDetails.__init__.
  destruct (ManagedPolicyDetails.__init___loop _ _ _ _ _ _ _) as [retained|]
    eqn:Hloop; [|done].
  cbn [mbind result_bind]. intros [= <-]. simpl.
  by apply __init___loop_ok in Hloop as (built & -> & Hbuilt).
Qed.

(** The flag of what a collection that is built retains. *)
Lemma __init___retained_not_excluded
    (new_PolicyDocument : value → Exclusions → bool → bool → result PolicyDocument)
    (policy_details : list PolicyDetail) (exclusions : Exclusions)
    (flag_conditional_statements flag_resource_arn_statements : bool)
    (severity : option (list string)) (self : ManagedPolicyDetails.t) :
  ManagedPolicyDetails.__init__ new_PolicyDocument policy_details exclusions
    flag_conditional_statements flag_resource_arn_statements severity = Ok self →
  ∀ policy, policy ∈ ManagedPolicyDetails.policy_details self →
    ManagedPolicy.is_excluded policy = false.
Proof.
  unfold ManagedPolicyDetails.__init__.
  destruct (ManagedPolicyDetails.__init___loop _ _ _ _ _ _ _) as [retained|]
    eqn:Hloop; [|done].
  cbn [mbind result_bind]. intros [= <-] policy Hin. simpl in Hin.
  apply __init___loop_ok in Hloop as (built & -> & Hbuilt).
  rewrite app_nil_l in Hin.
  apply list_elem_of_lookup in Hin as [i Hi].
  destruct (Forall2_lookup_r _ _ _ _ _ Hbuilt Hi) as (policy_detail & Hrecord & Hinit).
  apply list_elem_of_lookup_2, list_elem_of_filter in Hrecord as [Hkept _].
  by eapply record_kept_not_excluded.
Qed.

(** X1: every policy retained by the constructor of the collection has
    [is_excluded = False]: a record whose policy would be flagged is
    dropped before it is constructed. *)
Theorem retained_never_excluded
    (new_PolicyDocument : value → Exclusions → bool → bool → result PolicyDocument)
    (policy_details : list PolicyDetail) (exclusions : Exclusions)
    (flag_conditional_statements flag_resource_arn_statements : bool)
    (severity : option (list string)) (self : ManagedPolicyDetails.t) :
  ManagedPolicyDetails.__init__ new_PolicyDocument policy_details exclusions
    flag_conditional_statements flag_resource_arn_statements severity = Ok self →
  ∀ policy, policy ∈ ManagedPolicyDetails.policy_details self →
    ManagedPolicy.is_excluded policy = false.
Proof.
  unfold ManagedPolicyDetails.__init__.
  destruct (ManagedPolicyDetails.__init___loop _ _ _ _ _ _ _) as [retained|]
    eqn:Hloop; [|done].
  cbn [mbind result_bind]. intros [= <-] policy Hin. simpl in Hin.
  apply __init___loop_ok in Hloop as (built & -> & Hbuilt).
  rewrite app_nil_l in Hin.
  apply list_elem_of_lookup in Hin as [i Hi].
  destruct (Forall2_lookup_r _ _ _ _ _ Hbuilt Hi) as (policy_detail & Hrecord & Hinit).
  apply list_elem_of_lookup_2, list_elem_of_filter in Hrecord as [Hkept _].
  by eapply record_kept_not_excluded.
Qed.

Lemma retained_never_excluded_witness :
  sample_aws_policy
  ∈ ManagedPolicyDetails.policy_details
      (sample_collection
         [sample_aws_record; sample_service_role_record; sample_customer_record])
  ∧ ManagedPolicy.is_excluded sample_aws_policy = false.
Proof.
  assert (sample_aws_policy
          ∈ ManagedPolicyDetails.policy_details
              (sample_collection
                 [sample_aws_record; sample_service_role_record;
                  sample_customer_record])) as Hin by apply list_elem_of_here.
  split; [exact Hin|].
  apply (retained_never_excluded sample_PolicyDocument
           [sample_aws_record; sample_service_role_record; sample_customer_record]
           empty_exclusions false false None
           (sample_collection
              [sample_aws_record; sample_service_role_record;
               sample_customer_record])
           eq_refl sample_aws_policy Hin).
Defined.

(** X2: the policies retained by the constructor of the collection are,
    in the order of the input, the policies [ManagedPolicy] builds from
    the records that are kept; no other record contributes a policy. *)
Theorem retained_are_kept_records
    (new_PolicyDocument : value → Exclusions → bool → bool → result PolicyDocument)
    (policy_details : list PolicyDetail) (exclusions : Exclusions)
    (flag_conditional_statements flag_resource_arn_statements : bool)
    (severity : option (list string)) (self : ManagedPolicyDetails.t) :
  ManagedPolicyDetails.__init__ new_PolicyDocument policy_details exclusions
    flag_conditional_statements flag_resource_arn_statements severity = Ok self →
  Forall2
    (λ policy_detail policy,
       ManagedPolicy.__init__ new_PolicyDocument policy_detail exclusions
         flag_conditional_statements flag_resource_arn_statements severity
       = Ok policy)
    (filter (λ policy_detail, record_kept exclusions policy_detail = true)
       policy_details)
    (ManagedPolicyDetails.policy_details self).
Proof.
  unfold ManagedPolicyDetails.__init__.
  destruct (ManagedPolicyDetails.__init___loop _ _ _ _ _ _ _) as [retained|]
    eqn:Hloop; [|done].
  cbn [mbind result_bind]. intros [= <-]. simpl.
  by apply __init___loop_ok in Hloop as (built & -> & Hbuilt).
Qed.

Lemma retained_are_kept_records_witness :
  Forall2
    (λ policy_detail policy,
       ManagedPolicy.__init__ sample_PolicyDocument policy_detail empty_exclusions
         false false None = Ok policy)
    (filter (λ policy_detail, record_kept empty_exclusions policy_detail = true)
       [sample_service_role_record; sample_aws_record; sample_customer_record])
    (ManagedPolicyDetails.policy_details
       (sample_collection
          [sample_service_role_record; sample_aws_record; sample_customer_record])).
Proof.
  apply (retained_are_kept_records sample_PolicyDocument
           [sample_service_role_record; sample_aws_record; sample_customer_record]
           empty_exclusions false false None).
  reflexivity.
Defined.

(** X3: the constructor of the collection returns exactly when every
    record has its [PolicyName], [PolicyId] and [Path] and every record
    that is kept can be built into a [ManagedPolicy]. A record that is
    dropped is never built: it may lack its [Arn] or a default version. *)
Theorem collection_constructor_returns
    (new_PolicyDocument : value → Exclusions → bool → bool → result PolicyDocument)
    (policy_details : list PolicyDetail) (exclusions : Exclusions)
    (flag_conditional_statements flag_resource_arn_statements : bool)
    (severity : option (list string)) :
  is_ok (ManagedPolicyDetails.__init__ new_PolicyDocument policy_details exclusions
           flag_conditional_statements flag_resource_arn_statements severity)
  = true
  ↔ ∀ policy_detail, policy_detail ∈ policy_details →
      is_Some (PolicyName policy_detail)
      ∧ is_Some (PolicyId policy_detail)
      ∧ is_Some (Path policy_detail)
      ∧ (record_kept exclusions policy_detail = true →
         is_ok (ManagedPolicy.__init__ new_PolicyDocument policy_detail exclusions
                  flag_conditional_statements flag_resource_arn_statements
                  severity) = true).
Proof.
  assert (is_ok (ManagedPolicyDetails.__init__ new_PolicyDocument policy_details
                   exclusions flag_conditional_statements
                   flag_resource_arn_statements severity)
          = is_ok (ManagedPolicyDetails.__init___loop new_PolicyDocument
                     policy_details exclusions flag_conditional_statements
                     flag_resource_arn_statements severity [])) as ->.
  { unfold ManagedPolicyDetails.__init__.
    by destruct (ManagedPolicyDetails.__init___loop _ _ _ _ _ _ _). }
  rewrite __init___loop_is_ok.
  split; intros Hall policy_detail Hin; apply record_step_is_ok; by apply Hall.
Qed.

(** X4: when a record fails, the constructor of the collection raises
    the exception of the first failing record in input order and builds
    no collection: the [KeyError] of its first missing key among
    [PolicyName], [PolicyId], [Path], or, for a record that is kept, the
    exception of the [ManagedPolicy] constructor. *)
Theorem collection_constructor_first_failure
    (new_PolicyDocument : value → Exclusions → bool → bool → result PolicyDocument)
    (policy_details : list PolicyDetail) (exclusions : Exclusions)
    (flag_conditional_statements flag_resource_arn_statements : bool)
    (severity : option (list string)) (e : exn) :
  ManagedPolicyDetails.__init__ new_PolicyDocument policy_details exclusions
    flag_conditional_statements flag_resource_arn_statements severity = Raise e
  ↔ ∃ before policy_detail after,
      policy_details = before ++ policy_detail :: after
      ∧ (∀ earlier, earlier ∈ before →
           is_ok (record_step new_PolicyDocument exclusions
                    flag_conditional_statements flag_resource_arn_statements
                    severity earlier) = true)
      ∧ (PolicyName policy_detail = None ∧ e = KeyError "PolicyName"
         ∨ is_Some (PolicyName policy_detail)
           ∧ PolicyId policy_detail = None ∧ e = KeyError "PolicyId"
         ∨ is_Some (PolicyName policy_detail) ∧ is_Some (PolicyId policy_detail)
           ∧ Path policy_detail = None ∧ e = KeyError "Path"
         ∨ record_kept exclusions policy_detail = true
           ∧ ManagedPolicy.__init__ new_PolicyDocument policy_detail exclusions
               flag_conditional_statements flag_resource_arn_statements severity
             = Raise e).
Proof.
  assert (∀ policy_detail,
            record_step new_PolicyDocument exclusions flag_conditional_statements
              flag_resource_arn_statements severity policy_detail = Raise e
            ↔ (PolicyName policy_detail = None ∧ e = KeyError "PolicyName"
               ∨ is_Some (PolicyName policy_detail)
                 ∧ PolicyId policy_detail = None ∧ e = KeyError "PolicyId"
               ∨ is_Some (PolicyName policy_detail)
                 ∧ is_Some (PolicyId policy_detail)
                 ∧ Path policy_detail = None ∧ e = KeyError "Path"
               ∨ record_kept exclusions policy_detail = true
                 ∧ ManagedPolicy.__init__ new_PolicyDocument policy_detail
                     exclusions flag_conditional_statements
                     flag_resource_arn_statements severity = Raise e)) as Hstep.
  { intros policy_detail. unfold record_step, record_kept.
    destruct (PolicyName policy_detail) as [this_policy_name|];
      [|cbn; naive_solver].
    destruct (PolicyId policy_detail) as [this_policy_id|];
      [|cbn; naive_solver].
    destruct (Path policy_detail) as [this_policy_path|];
      [|cbn; naive_solver].
    cbn [getitem mbind result_bind].
    destruct (negb _ && negb _);
      [destruct (ManagedPolicy.__init__ _ _ _ _ _ _) as [policy|e']|];
      cbn; naive_solver. }
  assert (ManagedPolicyDetails.__init__ new_PolicyDocument policy_details exclusions
            flag_conditional_statements flag_resource_arn_statements severity
          = Raise e
          ↔ ManagedPolicyDetails.__init___loop new_PolicyDocument policy_details
              exclusions flag_conditional_statements flag_resource_arn_statements
              severity [] = Raise e) as ->.
  { unfold ManagedPolicyDetails.__init__.
    destruct (ManagedPolicyDetails.__init___loop _ _ _ _ _ _ _);
      cbn; split; intros [=]; by subst. }
  rewrite __init___loop_raise.
  split; intros (before & policy_detail & after & Hsplit & Hbefore & Hraise);
    exists before, policy_detail, after; split_and!; try done; by apply Hstep.
Qed.

(** X5: a collection that is built keeps the exclusions and the two
    flags it was given and starts with the empty inventory; every
    retained policy carries the same exclusions, the same two flags (not
    swapped), the given severity filter ([[]] for [None]) and the empty
    inventory. *)
Theorem retained_share_configuration
    (new_PolicyDocument : value → Exclusions → bool → bool → result PolicyDocument)
    (policy_details : list PolicyDetail) (exclusions : Exclusions)
    (flag_conditional_statements flag_resource_arn_statements : bool)
    (severity : option (list string)) (self : ManagedPolicyDetails.t) :
  ManagedPolicyDetails.__init__ new_PolicyDocument policy_details exclusions
    flag_conditional_statements flag_resource_arn_statements severity = Ok self →
  ManagedPolicyDetails.exclusions self = exclusions
  ∧ ManagedPolicyDetails.flag_conditional_statements self
    = flag_conditional_statements
  ∧ ManagedPolicyDetails.flag_resource_arn_statements self
    = flag_resource_arn_statements
  ∧ ManagedPolicyDetails.iam_data self = empty_iam_data
  ∧ ∀ policy, policy ∈ ManagedPolicyDetails.policy_details self →
      ManagedPolicy.exclusions policy = exclusions
      ∧ ManagedPolicy.flag_conditional_statements policy
        = flag_conditional_statements
      ∧ ManagedPolicy.flag_resource_arn_statements policy
        = flag_resource_arn_statements
      ∧ ManagedPolicy.severity policy = default [] severity
      ∧ ManagedPolicy.iam_data policy = empty_iam_data.
Proof.
  intros Hinit.
  pose proof (__init___built _ _ _ _ _ _ _ Hinit) as Hbuilt.
  revert Hinit. unfold ManagedPolicyDetails.__init__.
  destruct (ManagedPolicyDetails.__init___loop _ _ _ _ _ _ _) as [retained|];
    [|done].
  cbn [mbind result_bind]. intros [= <-]. split_and!; try done.
  intros policy Hin. simpl in Hin, Hbuilt.
  apply list_elem_of_lookup in Hin as [i Hi].
  destruct (Forall2_lookup_r _ _ _ _ _ Hbuilt Hi) as (policy_detail & _ & Hpolicy).
  apply __init___attributes in Hpolicy
    as (_ & _ & _ & _ & _ & ? & ? & ? & ? & ? & _).
  by split_and!.
Qed.

Lemma retained_share_configuration_witness :
  ManagedPolicy.severity sample_aws_policy = []
  ∧ ManagedPolicy.iam_data sample_aws_policy = empty_iam_data.
Proof.
  destruct (retained_share_configuration sample_PolicyDocument
              [sample_aws_record; sample_customer_record]
              empty_exclusions false false None
              (sample_collection [sample_aws_record; sample_customer_record])
              eq_refl) as (_ & _ & _ & _ & Hpolicies).
  destruct (Hpolicies sample_aws_policy (list_elem_of_here _ _))
    as (_ & _ & _ & Hseverity & Hinventory).
  by split.
Defined.

(** ** The constructor of a policy *)

(** X6: the outcome of the constructor of [ManagedPolicy], given an
    [Exclusions] object. When an identity key is missing it raises the
    [KeyError] of the first one missing in the order [PolicyName],
    [PolicyId], [Arn], [Path], whatever the version list holds. When the
    four keys are present and no version is flagged default, which
    includes a record without [PolicyVersionList] and one with an empty
    list, it raises the exception that carries the arn. Otherwise the
    outcome is that of the classifier on the [Document] of the first
    version flagged default: the constructor raises what the classifier
    raises, for instance on a version without a [Document], and returns
    a policy with the classifier's document when it returns one. *)
Theorem policy_constructor_raises
    (new_PolicyDocument : value → Exclusions → bool → bool → result PolicyDocument)
    (policy_detail : PolicyDetail) (exclusions : Exclusions)
    (flag_conditional_statements flag_resource_arn_statements : bool)
    (severity : option (list string)) :
  match first_missing_key policy_detail with
  | Some key =>
      ManagedPolicy.__init__ new_PolicyDocument policy_detail exclusions
        flag_conditional_statements flag_resource_arn_statements severity
      = Raise (KeyError key)
  | None =>
      ((∀ policy_version,
          policy_version ∈ default [] (PolicyVersionList policy_detail) →
          IsDefaultVersion policy_version ≠ Some (VBool true))
       ∧ ∃ arn,
           Arn policy_detail = Some arn
           ∧ ManagedPolicy.__init__ new_PolicyDocument policy_detail exclusions
               flag_conditional_statements flag_resource_arn_statements severity
             = Raise (no_default_version arn))
      ∨ (∃ before policy_version after,
           default [] (PolicyVersionList policy_detail)
             = before ++ policy_version :: after
           ∧ (∀ earlier, earlier ∈ before →
                IsDefaultVersion earlier ≠ Some (VBool true))
           ∧ IsDefaultVersion policy_version = Some (VBool true)
           ∧ match new_PolicyDocument (get (Document policy_version)) exclusions
                     flag_resource_arn_statements flag_conditional_statements with
             | Ok document =>
                 ∃ self,
                   ManagedPolicy.__init__ new_PolicyDocument policy_detail
                     exclusions flag_conditional_statements
                     flag_resource_arn_statements severity
                   = Ok self
                   ∧ ManagedPolicy.policy_document self = document
             | Raise e =>
                 ManagedPolicy.__init__ new_PolicyDocument policy_detail
                   exclusions flag_conditional_statements
                   flag_resource_arn_statements severity
                 = Raise e
             end)
  end.
Proof.
  unfold first_missing_key.
  destruct (PolicyName policy_detail) as [policy_name|] eqn:Hname;
    [|unfold ManagedPolicy.__init__; by rewrite Hname].
  destruct (PolicyId policy_detail) as [policy_id|] eqn:Hid;
    [|unfold ManagedPolicy.__init__; by rewrite Hname, Hid].
  destruct (Arn policy_detail) as [arn|] eqn:Harn;
    [|unfold ManagedPolicy.__init__; by rewrite Hname, Hid, Harn].
  destruct (Path policy_detail) as [path|] eqn:Hpath;
    [|unfold ManagedPolicy.__init__; by rewrite Hname, Hid, Harn, Hpath].
  pose proof (__init___document new_PolicyDocument policy_detail exclusions
                flag_conditional_statements flag_resource_arn_statements
                severity _ _ _ _ Hname Hid Harn Hpath) as Hinit.
  destruct (first_default_version_or_none
              (default [] (PolicyVersionList policy_detail)))
    as [(before & policy_version & after & Hsplit & Hbefore & Hflag)|Hnone].
  - right. exists before, policy_version, after. split_and!; try done.
    by rewrite Hsplit, (_policy_document_first _ _ _ _ _ _ _ _ Hbefore Hflag)
      in Hinit.
  - left. split; [done|]. exists arn. split; [done|].
    by rewrite (_policy_document_raise _ _ _ _ _ _ Hnone) in Hinit.
Qed.

(** ** Lookup in a constructed collection *)

(** The lookup returns exactly when a retained policy has the arn. *)
Lemma get_policy_detail_is_ok self arn :
  is_ok (ManagedPolicyDetails.get_policy_detail self arn) = true
  ↔ ∃ policy, policy ∈ ManagedPolicyDetails.policy_details self
      ∧ ManagedPolicy.arn policy = arn.
Proof.
  unfold ManagedPolicyDetails.get_policy_detail.
  rewrite get_policy_detail_from_find. split.
  - destruct (list_find _ _) as [[r found]|] eqn:Hfind; [|done]. intros _.
    apply list_find_Some in Hfind as (Hlookup & Harn & _).
    exists found. split; [by eapply list_elem_of_lookup_2 | done].
  - intros (policy & Hin & Harn).
    by destruct (list_find_elem_of (λ policy, ManagedPolicy.arn policy = arn)
                   _ policy Hin Harn) as [[r found] ->].
Qed.

(** X7: in a collection that is built, [get_policy_detail] finds an arn
    exactly when some input record that is kept carries it; the arn of a
    record that is dropped is not found unless a kept record shares it. *)
Theorem kept_records_found_by_arn
    (new_PolicyDocument : value → Exclusions → bool → bool → result PolicyDocument)
    (policy_details : list PolicyDetail) (exclusions : Exclusions)
    (flag_conditional_statements flag_resource_arn_statements : bool)
    (severity : option (list string)) (self : ManagedPolicyDetails.t)
    (arn : string) :
  ManagedPolicyDetails.__init__ new_PolicyDocument policy_details exclusions
    flag_conditional_statements flag_resource_arn_statements severity = Ok self →
  (is_ok (ManagedPolicyDetails.get_policy_detail self arn) = true
   ↔ ∃ policy_detail,
       policy_detail ∈ policy_details
       ∧ record_kept exclusions policy_detail = true
       ∧ Arn policy_detail = Some arn)
  ∧ (is_ok (ManagedPolicyDetails.get_policy_detail self arn) = false →
     ManagedPolicyDetails.get_policy_detail self arn
     = Raise (NotFoundException ("Managed Policy ARN " +:+ arn +:+ " not found."))).
Proof.
  intros Hinit.
  pose proof (__init___built _ _ _ _ _ _ _ Hinit) as Hbuilt.
  split.
  - rewrite get_policy_detail_is_ok. split.
    + intros (policy & [i Hi]%list_elem_of_lookup & <-).
      destruct (Forall2_lookup_r _ _ _ _ _ Hbuilt Hi)
        as (policy_detail & Hrecord & Hpolicy).
      apply list_elem_of_lookup_2, list_elem_of_filter in Hrecord as [Hkept Hin].
      apply __init___attributes in Hpolicy as (_ & _ & Harn & _).
      by exists policy_detail.
    + intros (policy_detail & Hin & Hkept & Harn).
      assert (policy_detail
              ∈ filter (λ policy_detail,
                          record_kept exclusions policy_detail = true)
                  policy_details) as [i Hi]%list_elem_of_lookup
        by by apply list_elem_of_filter.
      destruct (Forall2_lookup_l _ _ _ _ _ Hbuilt Hi) as (policy & Hpolicy & Hbuilt').
      apply __init___attributes in Hbuilt' as (_ & _ & Harn' & _).
      exists policy. split; [by eapply list_elem_of_lookup_2 | congruence].
  - unfold ManagedPolicyDetails.get_policy_detail.
    rewrite get_policy_detail_from_find.
    by destruct (list_find _ _) as [[r found]|].
Qed.

Lemma kept_records_found_by_arn_witness :
  (is_ok (ManagedPolicyDetails.get_policy_detail
            (sample_collection [sample_aws_record; sample_service_role_record])
            "arn:aws:iam::aws:policy/ReadOnlyAccess") = true
   ↔ ∃ policy_detail,
       policy_detail ∈ [sample_aws_record; sample_service_role_record]
       ∧ record_kept empty_exclusions policy_detail = true
       ∧ Arn policy_detail = Some "arn:aws:iam::aws:policy/ReadOnlyAccess").
Proof.
  apply (kept_records_found_by_arn sample_PolicyDocument
           [sample_aws_record; sample_service_role_record] empty_exclusions
           false false None
           (sample_collection [sample_aws_record; sample_service_role_record])
           "arn:aws:iam::aws:policy/ReadOnlyAccess").
  reflexivity.
Defined.

(** ** Attachments of policies that are not excluded *)

(** X8: for a policy that is not excluded, [getAttached] after
    [set_iam_data] has exactly the keys [roles], [groups] and [users];
    under each it lists, in the order of the new inventory, the names of
    the principals of that type whose pointer dict has the policy id as
    a key, the dict being [aws_managed_policies] when the arn is
    AWS-managed and [customer_managed_policies] otherwise. The inventory
    held before leaves no trace. *)
Theorem attached_principals_of_inventory
    (self : ManagedPolicy.t) (inventory : IamData) :
  ManagedPolicy.is_excluded self = false →
  ManagedPolicy.getAttached (ManagedPolicy.set_iam_data inventory self)
  = {[ "roles" := attached_names self (roles inventory);
       "groups" := attached_names self (groups inventory);
       "users" := attached_names self (users inventory) ]}.
Proof.
  intros Hexcluded.
  by rewrite (getAttached_not_excluded (ManagedPolicy.set_iam_data inventory self)).
Qed.

Lemma attached_principals_of_inventory_witness :
  ManagedPolicy.getAttached
    (ManagedPolicy.set_iam_data sample_inventory (sample_policy empty_exclusions []))
  = {[ "roles" := ["admin-role"]; "groups" := []; "users" := [] ]}.
Proof.
  rewrite (attached_principals_of_inventory (sample_policy empty_exclusions [])
             sample_inventory eq_refl).
  reflexivity.
Defined.

(** X9: a policy that has just been constructed reports
    [{roles: [], groups: [], users: []}], also when it is excluded: its
    inventory is empty until [set_iam_data] is called, so the test of
    the exclusion flag inside the loop is not reached. *)
Theorem constructed_policy_has_no_attachments
    (new_PolicyDocument : value → Exclusions → bool → bool → result PolicyDocument)
    (policy_detail : PolicyDetail) (exclusions : Exclusions)
    (flag_conditional_statements flag_resource_arn_statements : bool)
    (severity : option (list string)) (self : ManagedPolicy.t) :
  ManagedPolicy.__init__ new_PolicyDocument policy_detail exclusions
    flag_conditional_statements flag_resource_arn_statements severity = Ok self →
  ManagedPolicy.getAttached self
  = {[ "roles" := []; "groups" := []; "users" := [] ]}.
Proof.
  intros Hinit.
  apply __init___attributes in Hinit
    as (_ & _ & _ & _ & _ & _ & _ & _ & _ & Hinventory & _).
  unfold ManagedPolicy.getAttached. cbn [ManagedPolicy.getAttached_types].
  by rewrite Hinventory.
Qed.

Lemma constructed_policy_has_no_attachments_witness :
  ManagedPolicy.is_excluded sample_excluded_policy = true
  ∧ ManagedPolicy.getAttached sample_excluded_policy
    = {[ "roles" := []; "groups" := []; "users" := [] ]}.
Proof.
  split; [reflexivity|].
  apply (constructed_policy_has_no_attachments sample_PolicyDocument
           sample_customer_record sample_exclusions false false None).
  reflexivity.
Defined.

(** ** Reports of the collection *)

(** The reports of the collection under a policy id: the report of the
    last retained policy with that id. *)
Lemma collection_json_lookup ISSUE_SEVERITY RISK_DEFINITION self policy_id :
  ManagedPolicyDetails.json ISSUE_SEVERITY RISK_DEFINITION self !! policy_id
  = ManagedPolicy.json ISSUE_SEVERITY RISK_DEFINITION
      <$> last (filter (λ policy, ManagedPolicy.policy_id policy = policy_id)
                  (ManagedPolicyDetails.policy_details self)).
Proof.
  unfold ManagedPolicyDetails.json.
  rewrite comprehension_lookup, lookup_empty. by destruct (last _).
Qed.

Lemma collection_json_large_lookup ISSUE_SEVERITY RISK_DEFINITION self policy_id :
  ManagedPolicyDetails.json_large ISSUE_SEVERITY RISK_DEFINITION self !! policy_id
  = ManagedPolicy.json_large ISSUE_SEVERITY RISK_DEFINITION
      <$> last (filter (λ policy, ManagedPolicy.policy_id policy = policy_id)
                  (ManagedPolicyDetails.policy_details self)).
Proof.
  unfold ManagedPolicyDetails.json_large.
  rewrite comprehension_lookup, lookup_empty. by destruct (last _).
Qed.

(** The last element of a filtered list is an element that passes the
    filter, and some element passes when the list has one that does. *)
Lemma last_filter_is_Some {A} (P : A → Prop) `{!∀ x, Decision (P x)}
    (l : list A) :
  is_Some (last (filter P l)) ↔ ∃ x, x ∈ l ∧ P x.
Proof.
  rewrite last_is_Some. split.
  - intros Hne. destruct (filter P l) as [|x rest] eqn:Hfilter; [done|].
    exists x. assert (x ∈ filter P l) as Hin by (rewrite Hfilter; left).
    apply list_elem_of_filter in Hin. tauto.
  - intros (x & Hin & HP) Hnil.
    assert (x ∈ filter P l) as Hx by by apply list_elem_of_filter.
    rewrite Hnil in Hx. by apply elem_of_nil in Hx.
Qed.

(** X10: [json] and [json_large] of the collection have as keys exactly
    the policy ids of the retained policies, and under each id the
    report of the last retained policy that carries it. *)
Theorem collection_reports_by_id
    (ISSUE_SEVERITY RISK_DEFINITION : RiskCategory → string)
    (self : ManagedPolicyDetails.t) :
  dom (ManagedPolicyDetails.json ISSUE_SEVERITY RISK_DEFINITION self)
  = list_to_set (ManagedPolicy.policy_id <$> ManagedPolicyDetails.policy_details self)
  ∧ dom (ManagedPolicyDetails.json_large ISSUE_SEVERITY RISK_DEFINITION self)
    = list_to_set
        (ManagedPolicy.policy_id <$> ManagedPolicyDetails.policy_details self)
  ∧ ∀ policy_id,
      ManagedPolicyDetails.json ISSUE_SEVERITY RISK_DEFINITION self !! policy_id
      = ManagedPolicy.json ISSUE_SEVERITY RISK_DEFINITION
          <$> last (filter (λ policy, ManagedPolicy.policy_id policy = policy_id)
                      (ManagedPolicyDetails.policy_details self))
      ∧ ManagedPolicyDetails.json_large ISSUE_SEVERITY RISK_DEFINITION self
          !! policy_id
        = ManagedPolicy.json_large ISSUE_SEVERITY RISK_DEFINITION
            <$> last (filter (λ policy, ManagedPolicy.policy_id policy = policy_id)
                        (ManagedPolicyDetails.policy_details self)).
Proof.
  assert (∀ policy_id,
            is_Some (last (filter (λ policy,
                                     ManagedPolicy.policy_id policy = policy_id)
                             (ManagedPolicyDetails.policy_details self)))
            ↔ policy_id
              ∈ ManagedPolicy.policy_id
                  <$> ManagedPolicyDetails.policy_details self) as Hkeys.
  { intros policy_id. rewrite last_filter_is_Some, list_elem_of_fmap.
    naive_solver. }
  split_and!.
  - apply set_eq. intros policy_id.
    rewrite elem_of_dom, collection_json_lookup, fmap_is_Some, Hkeys.
    by rewrite elem_of_list_to_set.
  - apply set_eq. intros policy_id.
    rewrite elem_of_dom, collection_json_large_lookup, fmap_is_Some, Hkeys.
    by rewrite elem_of_list_to_set.
  - intros policy_id. split;
      [apply collection_json_lookup | apply collection_json_large_lookup].
Qed.

(** X11: [json] is [json_large] without the [InfrastructureModification]
    key, for a policy and for the collection: the two reports of a policy
    agree on every other key. *)
Theorem json_is_json_large_without_infrastructure
    (ISSUE_SEVERITY RISK_DEFINITION : RiskCategory → string)
    (self : ManagedPolicyDetails.t) :
  (∀ policy,
     ManagedPolicy.json ISSUE_SEVERITY RISK_DEFINITION policy
     = without_infrastructure
         (ManagedPolicy.json_large ISSUE_SEVERITY RISK_DEFINITION policy))
  ∧ ManagedPolicyDetails.json ISSUE_SEVERITY RISK_DEFINITION self
    = without_infrastructure
        <$> ManagedPolicyDetails.json_large ISSUE_SEVERITY RISK_DEFINITION self.
Proof.
  split; [done|].
  apply map_eq. intros policy_id.
  rewrite lookup_fmap, collection_json_lookup, collection_json_large_lookup.
  by destruct (last _).
Qed.

(** The last element that passes a filter is also the last one among
    the elements that pass a second filter it satisfies. *)
Lemma last_filter_filter {A} (P Q : A → Prop)
    `{!∀ x, Decision (P x), !∀ x, Decision (Q x)} (l : list A) (x : A) :
  last (filter P l) = Some x → Q x → last (filter P (filter Q l)) = Some x.
Proof.
  induction l as [|y l IH] using rev_ind; [done|].
  rewrite !filter_app. intros Hlast HQ.
  destruct (decide (P y)) as [HP|HP].
  - rewrite (filter_singleton_True P y []) in Hlast by done.
    rewrite last_snoc in Hlast. injection Hlast as ->.
    rewrite (filter_singleton_True Q x []) by done.
    rewrite (filter_singleton_True P x []) by done.
    apply last_snoc.
  - rewrite (filter_singleton_False P y []), app_nil_r in Hlast by done.
    destruct (decide (Q y)) as [HQy|HQy].
    + rewrite (filter_singleton_True Q y []) by done.
      rewrite (filter_singleton_False P y []), app_nil_r by done.
      by apply IH.
    + rewrite (filter_singleton_False Q y []), filter_nil, app_nil_r by done.
      by apply IH.
Qed.

(** X12: every report of [json_large] is also the report under the same
    id in [json_large_aws_managed] or in [json_large_customer_managed],
    and the keys of the two together are the keys of [json_large]. When
    the retained policies have pairwise distinct ids, the two have no key
    in common and [json_large] is their union. *)
Theorem reports_split_by_origin
    (ISSUE_SEVERITY RISK_DEFINITION : RiskCategory → string)
    (self : ManagedPolicyDetails.t) :
  (∀ policy_id report,
     ManagedPolicyDetails.json_large ISSUE_SEVERITY RISK_DEFINITION self
       !! policy_id = Some report →
     ManagedPolicyDetails.json_large_aws_managed ISSUE_SEVERITY RISK_DEFINITION
       self !! policy_id = Some report
     ∨ ManagedPolicyDetails.json_large_customer_managed ISSUE_SEVERITY
         RISK_DEFINITION self !! policy_id = Some report)
  ∧ dom (ManagedPolicyDetails.json_large ISSUE_SEVERITY RISK_DEFINITION self)
    = dom (ManagedPolicyDetails.json_large_aws_managed ISSUE_SEVERITY
             RISK_DEFINITION self)
      ∪ dom (ManagedPolicyDetails.json_large_customer_managed ISSUE_SEVERITY
               RISK_DEFINITION self)
  ∧ (NoDup (ManagedPolicy.policy_id <$> ManagedPolicyDetails.policy_details self) →
     ManagedPolicyDetails.json_large_aws_managed ISSUE_SEVERITY RISK_DEFINITION self
     ##ₘ ManagedPolicyDetails.json_large_customer_managed ISSUE_SEVERITY
           RISK_DEFINITION self
     ∧ ManagedPolicyDetails.json_large ISSUE_SEVERITY RISK_DEFINITION self
       = ManagedPolicyDetails.json_large_aws_managed ISSUE_SEVERITY
           RISK_DEFINITION self
         ∪ ManagedPolicyDetails.json_large_customer_managed ISSUE_SEVERITY
             RISK_DEFINITION self).
Proof.
  assert (∀ policy_id report,
            ManagedPolicyDetails.json_large ISSUE_SEVERITY RISK_DEFINITION self
              !! policy_id = Some report →
            ManagedPolicyDetails.json_large_aws_managed ISSUE_SEVERITY
              RISK_DEFINITION self !! policy_id = Some report
            ∨ ManagedPolicyDetails.json_large_customer_managed ISSUE_SEVERITY
                RISK_DEFINITION self !! policy_id = Some report) as Heither.
  { intros policy_id report.
    rewrite collection_json_large_lookup, json_large_aws_managed_lookup,
      json_large_customer_managed_lookup.
    unfold retained_with_id.
    intros (policy & Hlast & ->)%fmap_Some.
    destruct (is_aws_managed (ManagedPolicy.arn policy)) eqn:Horigin;
      [left|right];
      by rewrite (last_filter_filter _ _ _ policy Hlast Horigin). }
  assert (∀ policy_id,
            is_Some (ManagedPolicyDetails.json_large ISSUE_SEVERITY RISK_DEFINITION
                       self !! policy_id)
            ↔ is_Some (ManagedPolicyDetails.json_large_aws_managed ISSUE_SEVERITY
                         RISK_DEFINITION self !! policy_id)
              ∨ is_Some (ManagedPolicyDetails.json_large_customer_managed
                           ISSUE_SEVERITY RISK_DEFINITION self !! policy_id))
    as Hkeys.
  { intros policy_id. split.
    - intros [report Hreport]. destruct (Heither _ _ Hreport); eauto.
    - rewrite collection_json_large_lookup, json_large_aws_managed_lookup,
        json_large_customer_managed_lookup, !fmap_is_Some.
      unfold retained_with_id. rewrite !last_filter_is_Some.
      intros [(policy & Hin & Hid)|(policy & Hin & Hid)];
        apply list_elem_of_filter in Hin as [_ Hin]; eauto. }
  split_and!; [done| |].
  - apply set_eq. intros policy_id.
    by rewrite elem_of_union, !elem_of_dom.
  - intros Hnodup.
    assert (ManagedPolicyDetails.json_large_aws_managed ISSUE_SEVERITY
              RISK_DEFINITION self
            ##ₘ ManagedPolicyDetails.json_large_customer_managed ISSUE_SEVERITY
                  RISK_DEFINITION self) as Hdisjoint.
    { apply map_disjoint_spec. intros policy_id report report'.
      rewrite json_large_aws_managed_lookup, json_large_customer_managed_lookup.
      intros (policy & Hlast & _)%fmap_Some (policy' & Hlast' & _)%fmap_Some.
      apply (last_retained_with_id _ _ _ _ Hnodup) in Hlast as (Hin & Horigin & Hid).
      apply (last_retained_with_id _ _ _ _ Hnodup) in Hlast'
        as (Hin' & Horigin' & Hid').
      assert (policy = policy') as <-
        by (apply (NoDup_fmap_elem_inj ManagedPolicy.policy_id
                     (ManagedPolicyDetails.policy_details self)); congruence).
      congruence. }
    split; [done|]. apply map_eq. intros policy_id.
    destruct (ManagedPolicyDetails.json_large ISSUE_SEVERITY RISK_DEFINITION self
                !! policy_id) as [report|] eqn:Hreport.
    + symmetry. apply lookup_union_Some; [done|]. by apply Heither.
    + symmetry. apply lookup_union_None.
      split; apply eq_None_not_Some; intros Hsome;
        (assert (is_Some (ManagedPolicyDetails.json_large ISSUE_SEVERITY
                            RISK_DEFINITION self !! policy_id)) as [report Hsame]
           by (apply Hkeys; eauto));
        congruence.
Qed.

Lemma reports_split_by_origin_witness :
  ManagedPolicyDetails.json_large sample_ISSUE_SEVERITY sample_RISK_DEFINITION
    (sample_collection [sample_aws_record; sample_customer_record])
  = ManagedPolicyDetails.json_large_aws_managed sample_ISSUE_SEVERITY
      sample_RISK_DEFINITION
      (sample_collection [sample_aws_record; sample_customer_record])
    ∪ ManagedPolicyDetails.json_large_customer_managed sample_ISSUE_SEVERITY
        sample_RISK_DEFINITION
        (sample_collection [sample_aws_record; sample_customer_record]).
Proof.
  destruct (reports_split_by_origin sample_ISSUE_SEVERITY sample_RISK_DEFINITION
              (sample_collection [sample_aws_record; sample_customer_record]))
    as (_ & _ & Hdistinct).
  apply Hdistinct.
  apply NoDup_cons. split; [|apply NoDup_singleton].
  rewrite list_elem_of_singleton. discriminate.
Defined.

(** ** Case of labels and filter entries *)

Lemma lower_ascii_not_upper c : is_upper_ascii (lower_ascii c) = false.
Proof. by destruct c as [[] [] [] [] [] [] [] []]. Qed.

Lemma lower_has_no_upper s : has_upper (lower s) = false.
Proof.
  induction s as [|c s IH]; [done|].
  simpl. by rewrite lower_ascii_not_upper, IH.
Qed.

(** X13: the entries of the severity filter are lowered before the
    comparison and the label of [ISSUE_SEVERITY] is not. An entry in any
    ASCII case selects the category whose label is its lowering; a
    category whose label holds an ASCII capital letter is selected by no
    filter that has an entry, so both reports carry its empty findings
    list. *)
Theorem severity_filter_case
    (ISSUE_SEVERITY RISK_DEFINITION : RiskCategory → string)
    (extended : bool) (self : ManagedPolicy.t) (c : RiskCategory) :
  reported extended c →
  (∀ entry,
     entry ∈ ManagedPolicy.severity self →
     ISSUE_SEVERITY c = lower entry →
     report_findings (report_of ISSUE_SEVERITY RISK_DEFINITION extended self) c
     = Some (document_findings (ManagedPolicy.policy_document self) c))
  ∧ (has_upper (ISSUE_SEVERITY c) = true →
     ManagedPolicy.severity self ≠ [] →
     report_findings (report_of ISSUE_SEVERITY RISK_DEFINITION extended self) c
     = Some (no_findings c)).
Proof.
  intros Hreported.
  destruct (report_entry ISSUE_SEVERITY RISK_DEFINITION extended self c Hreported)
    as (_ & _ & ->).
  unfold ManagedPolicy.severity_selects. split.
  - intros entry Hin ->.
    rewrite bool_decide_eq_true_2; [done|]. by apply list_elem_of_fmap_2.
  - intros Hupper Hfilter.
    rewrite (bool_decide_eq_false_2 (ManagedPolicy.severity self = [])) by done.
    rewrite bool_decide_eq_false_2; [done|].
    intros (entry & Hlabel & _)%list_elem_of_fmap.
    by rewrite Hlabel, lower_has_no_upper in Hupper.
Qed.

Lemma severity_filter_case_witness :
  report_findings
    (report_of sample_ISSUE_SEVERITY sample_RISK_DEFINITION true
       (sample_policy empty_exclusions ["PrivilegeEscalation"]))
    PrivilegeEscalation
  = Some (document_findings
            (ManagedPolicy.policy_document
               (sample_policy empty_exclusions ["PrivilegeEscalation"]))
            PrivilegeEscalation)
  ∧ report_findings
      (report_of (λ _, "High") sample_RISK_DEFINITION true
         (sample_policy empty_exclusions ["High"; "high"]))
      PrivilegeEscalation
    = Some (FindingList []).
Proof.
  assert (reported true PrivilegeEscalation) as Hreported by done.
  split.
  - destruct (severity_filter_case sample_ISSUE_SEVERITY sample_RISK_DEFINITION true
                (sample_policy empty_exclusions ["PrivilegeEscalation"])
                PrivilegeEscalation Hreported) as [Hselected _].
    apply (Hselected "PrivilegeEscalation"); [apply list_elem_of_here | reflexivity].
  - destruct (severity_filter_case (λ _, "High") sample_RISK_DEFINITION true
                (sample_policy empty_exclusions ["High"; "high"])
                PrivilegeEscalation Hreported) as [_ Hnever].
    apply Hnever; [reflexivity | discriminate].
Defined.

(** ** Infrastructure modification actions in reports *)

(** The members of [all_infrastructure_modification_actions]. *)
Lemma all_infrastructure_elem self action :
  action ∈ ManagedPolicyDetails.all_infrastructure_modification_actions self
  ↔ ∃ policy,
      policy ∈ ManagedPolicyDetails.policy_details self
      ∧ action ∈ infrastructure_modification (ManagedPolicy.policy_document policy).
Proof.
  unfold ManagedPolicyDetails.all_infrastructure_modification_actions.
  rewrite merge_sort_Permutation, elem_of_elements, infrastructure_union_elem.
  split; [intros [[]%elem_of_empty|?]; done | by right].
Qed.

(** X14: every action listed under [InfrastructureModification] in a
    report of [json_large] of the collection is a member of
    [all_infrastructure_modification_actions]; the latter is not gated by
    the severity filter, so it also holds the actions of a policy whose
    report lists none. *)
Theorem reported_infrastructure_in_union
    (ISSUE_SEVERITY RISK_DEFINITION : RiskCategory → string)
    (self : ManagedPolicyDetails.t) :
  (∀ policy_id report entry action,
     ManagedPolicyDetails.json_large ISSUE_SEVERITY RISK_DEFINITION self
       !! policy_id = Some report →
     Report.InfrastructureModification report = Some entry →
     action ∈ Report.findings entry →
     action ∈ ManagedPolicyDetails.all_infrastructure_modification_actions self)
  ∧ (∀ policy action,
       policy ∈ ManagedPolicyDetails.policy_details self →
       action ∈ infrastructure_modification (ManagedPolicy.policy_document policy) →
       action ∈ ManagedPolicyDetails.all_infrastructure_modification_actions self).
Proof.
  split.
  - intros policy_id report entry action.
    rewrite collection_json_large_lookup.
    intros (policy & Hlast & ->)%fmap_Some [= <-]. simpl.
    apply last_Some_elem_of, list_elem_of_filter in Hlast as [_ Hin].
    destruct (ManagedPolicy.severity_selects _ _ _); [|by intros ?%elem_of_nil].
    intros Haction. apply all_infrastructure_elem. eauto.
  - intros policy action Hin Haction. apply all_infrastructure_elem. eauto.
Qed.

Lemma reported_infrastructure_in_union_witness :
  "s3:GetObject"
  ∈ ManagedPolicyDetails.all_infrastructure_modification_actions
      (sample_collection [sample_aws_record; sample_customer_record]).
Proof.
  destruct (reported_infrastructure_in_union sample_ISSUE_SEVERITY
              sample_RISK_DEFINITION
              (sample_collection [sample_aws_record; sample_customer_record]))
    as [_ Hmember].
  apply (Hmember sample_aws_policy); [apply list_elem_of_here|].
  simpl. apply list_elem_of_here.
Defined.

(** ** The inventory and the reports *)

(** X15: replacing the inventory of the collection changes, in the
    reports, the value of [AttachedTo] only: [json_large] keeps its keys
    and every report is the former report under that id with the new
    attachments; [all_infrastructure_modification_actions] and the
    outcome of [get_policy_detail] do not change. *)
Theorem inventory_changes_attachments_only
    (ISSUE_SEVERITY RISK_DEFINITION : RiskCategory → string)
    (inventory : IamData) (self : ManagedPolicyDetails.t) :
  dom (ManagedPolicyDetails.json_large ISSUE_SEVERITY RISK_DEFINITION
         (ManagedPolicyDetails.set_iam_data inventory self))
  = dom (ManagedPolicyDetails.json_large ISSUE_SEVERITY RISK_DEFINITION self)
  ∧ (∀ policy_id report,
       ManagedPolicyDetails.json_large ISSUE_SEVERITY RISK_DEFINITION
         (ManagedPolicyDetails.set_iam_data inventory self) !! policy_id
       = Some report →
       ∃ former,
         ManagedPolicyDetails.json_large ISSUE_SEVERITY RISK_DEFINITION self
           !! policy_id = Some former
         ∧ report = with_attached (Report.AttachedTo report) former)
  ∧ ManagedPolicyDetails.all_infrastructure_modification_actions
      (ManagedPolicyDetails.set_iam_data inventory self)
    = ManagedPolicyDetails.all_infrastructure_modification_actions self
  ∧ ∀ arn,
      ManagedPolicyDetails.get_policy_detail
        (ManagedPolicyDetails.set_iam_data inventory self) arn
      = ManagedPolicyDetails.get_policy_detail self arn.
Proof.
  assert (∀ policy_id,
            ManagedPolicyDetails.json_large ISSUE_SEVERITY RISK_DEFINITION
              (ManagedPolicyDetails.set_iam_data inventory self) !! policy_id
            = (λ policy,
                 ManagedPolicy.json_large ISSUE_SEVERITY RISK_DEFINITION
                   (ManagedPolicy.set_iam_data inventory policy))
                <$> last (filter (λ policy,
                                    ManagedPolicy.policy_id policy = policy_id)
                            (ManagedPolicyDetails.policy_details self)))
    as Hlookup.
  { intros policy_id. unfold ManagedPolicyDetails.json_large. simpl.
    rewrite foldl_fmap.
    rewrite (comprehension_lookup ManagedPolicy.policy_id
               (λ policy, ManagedPolicy.json_large ISSUE_SEVERITY RISK_DEFINITION
                            (ManagedPolicy.set_iam_data inventory policy))).
    rewrite lookup_empty. by destruct (last _). }
  split_and!.
  - apply set_eq. intros policy_id.
    by rewrite !elem_of_dom, Hlookup, collection_json_large_lookup, !fmap_is_Some.
  - intros policy_id report. rewrite Hlookup, collection_json_large_lookup.
    intros (policy & -> & ->)%fmap_Some. by eexists.
  - unfold ManagedPolicyDetails.all_infrastructure_modification_actions. simpl.
    by rewrite foldl_fmap.
  - intros arn. unfold ManagedPolicyDetails.get_policy_detail. simpl.
    apply get_policy_detail_from_set_iam_data.
Qed.

(** X16: [set_iam_data] replaces the snapshot as a whole: after two
    calls the collection and its policies are as after the second call
    alone, and a call with the inventory already held changes nothing. *)
Theorem set_iam_data_replaces
    (first second : IamData) (self : ManagedPolicyDetails.t) :
  ManagedPolicyDetails.set_iam_data second
    (ManagedPolicyDetails.set_iam_data first self)
  = ManagedPolicyDetails.set_iam_data second self
  ∧ ((ManagedPolicyDetails.iam_data self = second
      ∧ ∀ policy, policy ∈ ManagedPolicyDetails.policy_details self →
          ManagedPolicy.iam_data policy = second) →
     ManagedPolicyDetails.set_iam_data second self = self).
Proof.
  split.
  - unfold ManagedPolicyDetails.set_iam_data. simpl. f_equal.
    by rewrite <- list_fmap_compose.
  - intros [Hcollection Hpolicies].
    destruct self as [retained exclusions conditional resource inventory].
    unfold ManagedPolicyDetails.set_iam_data. simpl in *. subst inventory.
    f_equal. rewrite <- (list_fmap_id retained) at 2.
    apply list_fmap_ext. intros i policy Hi.
    specialize (Hpolicies policy (list_elem_of_lookup_2 _ _ _ Hi)).
    destruct policy. simpl in *. by subst.
Qed.

Lemma set_iam_data_replaces_witness :
  ManagedPolicyDetails.set_iam_data empty_iam_data
    (sample_collection [sample_aws_record; sample_customer_record])
  = sample_collection [sample_aws_record; sample_customer_record].
Proof.
  destruct (set_iam_data_replaces empty_iam_data empty_iam_data
              (sample_collection [sample_aws_record; sample_customer_record]))
    as [_ Hsame].
  apply Hsame. split; [reflexivity|].
  intros policy Hin. simpl in Hin.
  rewrite !elem_of_cons, elem_of_nil in Hin.
  destruct Hin as [->|[->|[]]]; reflexivity.
Defined.

(** The reports of [json_large] after the inventory is replaced. *)
Lemma json_large_set_iam_data_lookup ISSUE_SEVERITY RISK_DEFINITION inventory self
    policy_id :
  ManagedPolicyDetails.json_large ISSUE_SEVERITY RISK_DEFINITION
    (ManagedPolicyDetails.set_iam_data inventory self) !! policy_id
  = (λ policy,
       ManagedPolicy.json_large ISSUE_SEVERITY RISK_DEFINITION
         (ManagedPolicy.set_iam_data inventory policy))
      <$> last (filter (λ policy, ManagedPolicy.policy_id policy = policy_id)
                  (ManagedPolicyDetails.policy_details self)).
Proof.
  unfold ManagedPolicyDetails.json_large. simpl. rewrite foldl_fmap.
  rewrite (comprehension_lookup ManagedPolicy.policy_id
             (λ policy, ManagedPolicy.json_large ISSUE_SEVERITY RISK_DEFINITION
                          (ManagedPolicy.set_iam_data inventory policy))).
  rewrite lookup_empty. by destruct (last _).
Qed.

(** X17: in a collection that is built, whatever inventory is set, every
    report of [json_large] has [is_excluded = False] and an [AttachedTo]
    with the three keys [roles], [groups] and [users], listing the
    principals of the inventory that point to the policy of the report;
    the empty dict of an excluded policy never shows up. *)
Theorem built_collection_reports_attachments
    (new_PolicyDocument : value → Exclusions → bool → bool → result PolicyDocument)
    (ISSUE_SEVERITY RISK_DEFINITION : RiskCategory → string)
    (policy_details : list PolicyDetail) (exclusions : Exclusions)
    (flag_conditional_statements flag_resource_arn_statements : bool)
    (severity : option (list string)) (self : ManagedPolicyDetails.t)
    (inventory : IamData) (policy_id : string) (report : Report.t) :
  ManagedPolicyDetails.__init__ new_PolicyDocument policy_details exclusions
    flag_conditional_statements flag_resource_arn_statements severity = Ok self →
  ManagedPolicyDetails.json_large ISSUE_SEVERITY RISK_DEFINITION
    (ManagedPolicyDetails.set_iam_data inventory self) !! policy_id = Some report →
  Report.is_excluded report = false
  ∧ ∃ policy,
      policy ∈ ManagedPolicyDetails.policy_details self
      ∧ ManagedPolicy.policy_id policy = policy_id
      ∧ Report.AttachedTo report
        = {[ "roles" := attached_names policy (roles inventory);
             "groups" := attached_names policy (groups inventory);
             "users" := attached_names policy (users inventory) ]}.
Proof.
  intros Hinit. rewrite json_large_set_iam_data_lookup.
  intros (policy & Hlast & ->)%fmap_Some.
  apply last_Some_elem_of, list_elem_of_filter in Hlast as [Hid Hin].
  pose proof (__init___retained_not_excluded _ _ _ _ _ _ _ Hinit policy Hin)
    as Hexcluded.
  split; [done|]. exists policy. split_and!; [done..|].
  cbn [ManagedPolicy.json_large Report.AttachedTo].
  by rewrite (getAttached_not_excluded (ManagedPolicy.set_iam_data inventory policy)).
Qed.

Lemma built_collection_reports_attachments_witness :
  ∃ report,
    ManagedPolicyDetails.json_large sample_ISSUE_SEVERITY sample_RISK_DEFINITION
      (ManagedPolicyDetails.set_iam_data sample_inventory
         (sample_collection [sample_aws_record; sample_customer_record]))
      !! "ANPAREADONLY" = Some report
    ∧ Report.is_excluded report = false.
Proof.
  eexists. split; [reflexivity|].
  eapply (built_collection_reports_attachments sample_PolicyDocument
            sample_ISSUE_SEVERITY sample_RISK_DEFINITION
            [sample_aws_record; sample_customer_record] empty_exclusions
            false false None
            (sample_collection [sample_aws_record; sample_customer_record])
            sample_inventory "ANPAREADONLY");
    reflexivity.
Defined.

(** ** From the record to the report *)

(** X18: both reports of a policy that has just been constructed show
    the identity of the record, its version list ([[]] when the key is
    missing) and the five metadata keys that are reported, each as the
    record has it and [None] when missing, whatever the severity filter;
    [is_excluded] is the flag and [AttachedTo] holds three empty lists. *)
Theorem report_shows_record
    (new_PolicyDocument : value → Exclusions → bool → bool → result PolicyDocument)
    (ISSUE_SEVERITY RISK_DEFINITION : RiskCategory → string)
    (policy_detail : PolicyDetail) (exclusions : Exclusions)
    (flag_conditional_statements flag_resource_arn_statements : bool)
    (severity : option (list string)) (extended : bool) (self : ManagedPolicy.t) :
  ManagedPolicy.__init__ new_PolicyDocument policy_detail exclusions
    flag_conditional_statements flag_resource_arn_statements severity = Ok self →
  PolicyName policy_detail
  = Some (Report.PolicyName
            (report_of ISSUE_SEVERITY RISK_DEFINITION extended self))
  ∧ PolicyId policy_detail
    = Some (Report.PolicyId
              (report_of ISSUE_SEVERITY RISK_DEFINITION extended self))
  ∧ Arn policy_detail
    = Some (Report.Arn (report_of ISSUE_SEVERITY RISK_DEFINITION extended self))
  ∧ Path policy_detail
    = Some (Report.Path (report_of ISSUE_SEVERITY RISK_DEFINITION extended self))
  ∧ Report.DefaultVersionId
      (report_of ISSUE_SEVERITY RISK_DEFINITION extended self)
    = default VNone (DefaultVersionId policy_detail)
  ∧ Report.AttachmentCount
      (report_of ISSUE_SEVERITY RISK_DEFINITION extended self)
    = default VNone (AttachmentCount policy_detail)
  ∧ Report.IsAttachable (report_of ISSUE_SEVERITY RISK_DEFINITION extended self)
    = default VNone (IsAttachable policy_detail)
  ∧ Report.CreateDate (report_of ISSUE_SEVERITY RISK_DEFINITION extended self)
    = default VNone (CreateDate policy_detail)
  ∧ Report.UpdateDate (report_of ISSUE_SEVERITY RISK_DEFINITION extended self)
    = default VNone (UpdateDate policy_detail)
  ∧ Report.PolicyVersionList
      (report_of ISSUE_SEVERITY RISK_DEFINITION extended self)
    = default [] (PolicyVersionList policy_detail)
  ∧ Report.is_excluded (report_of ISSUE_SEVERITY RISK_DEFINITION extended self)
    = ManagedPolicy.is_excluded self
  ∧ Report.AttachedTo (report_of ISSUE_SEVERITY RISK_DEFINITION extended self)
    = {[ "roles" := []; "groups" := []; "users" := [] ]}.
Proof.
  unfold ManagedPolicy.__init__. intros Hinit.
  destruct (PolicyName policy_detail) as [policy_name|]; [|done].
  destruct (PolicyId policy_detail) as [policy_id|]; [|done].
  destruct (Arn policy_detail) as [arn|]; [|done].
  destruct (Path policy_detail) as [path|]; [|done].
  simpl in Hinit.
  destruct (ManagedPolicy._policy_document _ _ _ _ _ _) as [document|]; [|done].
  simpl in Hinit. injection Hinit as <-.
  by destruct extended.
Qed.

Lemma report_shows_record_witness :
  Report.AttachmentCount
    (report_of sample_ISSUE_SEVERITY sample_RISK_DEFINITION false
       (sample_policy empty_exclusions ["high"]))
  = VNone.
Proof.
  eapply (report_shows_record sample_PolicyDocument sample_ISSUE_SEVERITY
            sample_RISK_DEFINITION sample_customer_record empty_exclusions
            false false (Some ["high"]) false
            (sample_policy empty_exclusions ["high"])).
  reflexivity.
Defined.
